(** * Live Stream Tester: the playback session orchestrator

    A shallow embedding of the orchestration logic of the SolidJS
    application: the test controller (the [StreamTester] component, in its
    nine-format version with backup URLs and in its first four-format
    version) and the player (the [VideoPlayer] component).

    Signals of the components become fields of a state record, every
    handler becomes a function on that record, timers become pending
    entries of the record that a separate "fires" function consumes, and
    the browser objects the player owns (engines, sockets, peer
    connections) become entries of a resource table. *)

From Stdlib Require Import ZArith List Ascii String Bool Lia Arith.
Import ListNotations.
Local Open Scope string_scope.
Local Open Scope Z_scope.

(** ** Shared vocabulary *)

(** [type VideoFormat = "hls" | "dash" | ... | "smooth"] *)
Inductive VideoFormat :=
| hls | dash | webrtc | mp4 | rtmp | rtsp | srt | flv | smooth.

(** The status carried by the [status] signal and by [onStatusChange]. *)
Inductive Status := Success | Error | Loading.

(** The [status] field of a [StreamResult] has a fourth value. *)
Inductive ResultStatus := Tested (st : Status) | NotTested.

Definition format_eqb (a b : VideoFormat) : bool :=
  match a, b with
  | hls, hls | dash, dash | webrtc, webrtc | mp4, mp4 | rtmp, rtmp
  | rtsp, rtsp | srt, srt | flv, flv | smooth, smooth => true
  | _, _ => false
  end.

Definition status_eqb (a b : Status) : bool :=
  match a, b with
  | Success, Success | Error, Error | Loading, Loading => true
  | _, _ => false
  end.

Definition rstatus_eqb (a b : ResultStatus) : bool :=
  match a, b with
  | Tested x, Tested y => status_eqb x y
  | NotTested, NotTested => true
  | _, _ => false
  end.

(** JavaScript truthiness of a string: only the empty string is falsy. *)
Definition truthy (u : string) : bool := negb (String.eqb u "").

(** [u || ""] *)
Definition or_empty (u : string) : string := if truthy u then u else "".

(** ** The bounded wait of a sweep step

    Both versions of [handleTestAll] wait with the same promise body:
    [setInterval(checkStatus, 500)] polls the [status] signal and a
    [setTimeout(..., 10000)] forces the outcome.  The wait is modelled on
    a logical clock in milliseconds.  Between two firings of the interval
    the player may invoke the status callback any number of times: window
    [i] holds the callbacks that run before firing [i+1].  [polls] is the
    number of interval firings that precede the timeout (both timers are
    due at 10000 ms for the twentieth firing, so 19 or 20 on an ideal
    clock; the definitions below take any number). *)

Definition POLL_MS : Z := 500.
Definition TIMEOUT_MS : Z := 10000.
Definition SETTLE_MS : Z := 1000.

Section SweepWait.
Variable St : Type.
Variable status_of : St -> Status.
(** [handleStatusChange], with the reading of the clock. *)
Variable onStatus : Z -> Status -> St -> St.

(** The callbacks of one window, in order. *)
Definition deliver (now : Z) (cbs : list Status) (s : St) : St :=
  fold_left (fun s st => onStatus now st s) cbs s.

(** The state after the callbacks of windows [i .. i+k-1]. *)
Fixpoint afterWindows (k i : nat) (w : nat -> list Status) (t0 : Z)
    (s : St) : St :=
  match k with
  | O => s
  | S k' =>
    afterWindows k' (S i) w t0 (deliver (t0 + POLL_MS * Z.of_nat i) (w i) s)
  end.

(** The promise of the wait: [n] interval firings are still to come
    before the timeout, [i] have happened.  Returns the state when the
    promise resolves, the time elapsed since the wait began, and whether
    the timeout resolved it. *)
Fixpoint waitLoop (n i : nat) (w : nat -> list Status) (t0 : Z) (s : St)
    : St * Z * bool :=
  let s1 := deliver (t0 + POLL_MS * Z.of_nat i) (w i) s in
  match n with
  | O =>
    (* timeout: clearInterval; handleStatusChange("error"); resolve() *)
    (onStatus (t0 + TIMEOUT_MS) Error s1, TIMEOUT_MS, true)
  | S n' =>
    (* checkStatus *)
    if status_eqb (status_of s1) Loading
    then waitLoop n' (S i) w t0 s1
    else (s1, POLL_MS * Z.of_nat (S i), false)
  end.
End SweepWait.

(** ** The test controller, nine formats and backup URLs *)

Module Tester.

(** [interface StreamResult] *)
Record StreamResult := mkResult {
  r_format : VideoFormat;
  r_url : string;
  r_status : ResultStatus;
  r_timestamp : Z
}.

Definition result_eqb (a b : StreamResult) : bool :=
  format_eqb (r_format a) (r_format b) && String.eqb (r_url a) (r_url b)
  && rstatus_eqb (r_status a) (r_status b) && (r_timestamp a =? r_timestamp b).

Fixpoint results_eqb (l m : list StreamResult) : bool :=
  match l, m with
  | [], [] => true
  | a :: l', b :: m' => result_eqb a b && results_eqb l' m'
  | _, _ => false
  end.

(** [SAMPLE_STREAMS[format]]: the primary sample URL. *)
Definition SAMPLE_STREAMS (f : VideoFormat) : string :=
  match f with
  | hls => "https://test-streams.mux.dev/x36xhzz/x36xhzz.m3u8"
  | dash => "https://dash.akamaized.net/akamai/test/caption_test/ElephantsDream/elephants_dream_480p_heaac5_1.mpd"
  | webrtc => "wss://demo.cloudwebrtc.com:8443/ws"
  | mp4 => "https://test-videos.co.uk/vids/bigbuckbunny/mp4/h264/360/Big_Buck_Bunny_360_10s_1MB.mp4"
  | rtmp => "rtmp://live.twitch.tv/app/"
  | rtsp => "rtsp://wowzaec2demo.streamlock.net/vod/mp4:BigBuckBunny_115k.mp4"
  | srt => "srt://18.138.248.25:30000"
  | flv => "https://samples.mux.dev/big_buck_bunny_720p_1mb.flv"
  | smooth => "https://test.playready.microsoft.com/smoothstreaming/SSWSS720H264/SuperSpeedway_720.ism/manifest"
  end.

(** [SAMPLE_STREAMS[`${format}Backup`]]: the ordered backup URLs. *)
Definition SAMPLE_BACKUPS (f : VideoFormat) : list string :=
  match f with
  | hls =>
    [ "https://demo.unified-streaming.com/k8s/features/stable/video/tears-of-steel/tears-of-steel.ism/.m3u8";
      "https://playertest.longtailvideo.com/adaptive/bipbop/gear4/prog_index.m3u8";
      "https://cph-p2p-msl.akamaized.net/hls/live/2000341/test/master.m3u8" ]
  | dash =>
    [ "https://demo.unified-streaming.com/k8s/features/stable/video/tears-of-steel/tears-of-steel.ism/.mpd";
      "https://livesim.dashif.org/livesim/chunkdur_1/ato_7/testpic4_8s/Manifest.mpd";
      "https://dash.akamaized.net/dash264/TestCases/1a/sony/SNE_DASH_SD_CASE1A_REVISED.mpd" ]
  | webrtc =>
    [ "wss://webrtc.live-video.net/janus";
      "wss://webrtc-signaling.millicast.com/ws";
      "wss://webrtc.echotest.io/ws" ]
  | mp4 =>
    [ "https://media.w3.org/2010/05/sintel/trailer.mp4";
      "https://demo.unified-streaming.com/video/tears-of-steel/tears-of-steel.mp4" ]
  | rtmp =>
    [ "rtmp://fms.105.net/live/rmc1";
      "rtmp://streaming.cityofboston.gov/live/cable" ]
  | rtsp =>
    [ "rtsp://demo.unified-streaming.com/video/tears-of-steel/tears-of-steel.mp4";
      "rtsp://streaming.cityofboston.gov/live/cable" ]
  | srt =>
    [ "srt://srt-demo.streamroot.io:7001";
      "srt://srt.streamroot.io:1234" ]
  | flv =>
    [ "https://dc.demuxed.com/video.flv";
      "https://cdn.jsdelivr.net/gh/mayeaux/videojs-flashls-source-handler/video/test.flv";
      "https://cdn.plyr.io/static/demo/View_From_A_Blue_Moon_Trailer-960x540.flv" ]
  | smooth =>
    [ "https://playready.directtaps.net/smoothstreaming/SSWSS720H264PR/SuperSpeedway_720.ism/Manifest";
      "http://amssamples.streaming.mediaservices.windows.net/49b57c87-f5f3-48b3-ba22-c55cfdffa9cb/Sintel.ism/manifest" ]
  end.

(** [formatOptions.map((opt) => opt.value)], in declaration order. *)
Definition formatOptions : list VideoFormat :=
  [hls; dash; webrtc; mp4; rtmp; rtsp; srt; flv; smooth].

(** The signals of the component, and its pending timers.  A timer is
    pending while its field holds its captured arguments; clearing or
    firing it empties the field. *)
Record State := mkState {
  selectedFormat : VideoFormat;
  inputUrl : string;
  isTestActive : bool;
  status : Status;
  results : list StreamResult;
  backupUrlIndex : Z;
  formatChangeTimer : option VideoFormat;
  urlChangeTimer : option (string * bool);
  startTimers : nat;   (* pending [setTimeout(() => handleStartTest(), 150)] *)
  resetTimers : nat    (* pending 50 ms timers of [resetPlayStatus] *)
}.

Definition initial : State :=
  mkState hls (SAMPLE_STREAMS hls) false Loading [] (-1) None None 0 0.

Definition setSelectedFormat (f : VideoFormat) (s : State) : State :=
  mkState f (inputUrl s) (isTestActive s) (status s) (results s)
    (backupUrlIndex s) (formatChangeTimer s) (urlChangeTimer s)
    (startTimers s) (resetTimers s).

Definition setInputUrl (u : string) (s : State) : State :=
  mkState (selectedFormat s) u (isTestActive s) (status s) (results s)
    (backupUrlIndex s) (formatChangeTimer s) (urlChangeTimer s)
    (startTimers s) (resetTimers s).

Definition setIsTestActive (b : bool) (s : State) : State :=
  mkState (selectedFormat s) (inputUrl s) b (status s) (results s)
    (backupUrlIndex s) (formatChangeTimer s) (urlChangeTimer s)
    (startTimers s) (resetTimers s).

Definition setStatus (st : Status) (s : State) : State :=
  mkState (selectedFormat s) (inputUrl s) (isTestActive s) st (results s)
    (backupUrlIndex s) (formatChangeTimer s) (urlChangeTimer s)
    (startTimers s) (resetTimers s).

Definition setResults (f : list StreamResult -> list StreamResult)
    (s : State) : State :=
  mkState (selectedFormat s) (inputUrl s) (isTestActive s) (status s)
    (f (results s)) (backupUrlIndex s) (formatChangeTimer s)
    (urlChangeTimer s) (startTimers s) (resetTimers s).

Definition setBackupUrlIndex (i : Z) (s : State) : State :=
  mkState (selectedFormat s) (inputUrl s) (isTestActive s) (status s)
    (results s) i (formatChangeTimer s) (urlChangeTimer s)
    (startTimers s) (resetTimers s).

Definition setFormatChangeTimer (t : option VideoFormat) (s : State) : State :=
  mkState (selectedFormat s) (inputUrl s) (isTestActive s) (status s)
    (results s) (backupUrlIndex s) t (urlChangeTimer s)
    (startTimers s) (resetTimers s).

Definition setUrlChangeTimer (t : option (string * bool)) (s : State) : State :=
  mkState (selectedFormat s) (inputUrl s) (isTestActive s) (status s)
    (results s) (backupUrlIndex s) (formatChangeTimer s) t
    (startTimers s) (resetTimers s).

Definition setStartTimers (n : nat) (s : State) : State :=
  mkState (selectedFormat s) (inputUrl s) (isTestActive s) (status s)
    (results s) (backupUrlIndex s) (formatChangeTimer s) (urlChangeTimer s)
    n (resetTimers s).

Definition setResetTimers (n : nat) (s : State) : State :=
  mkState (selectedFormat s) (inputUrl s) (isTestActive s) (status s)
    (results s) (backupUrlIndex s) (formatChangeTimer s) (urlChangeTimer s)
    (startTimers s) n.

(** [getCurrentUrl(format, backupIndex = -1)].  The index is a number of
    the program that is only ever -1 or the result of [%] on a
    non-negative number; for an index below -1 JavaScript's
    [backups[backupIndex]] is [undefined], a falsy value, which the model
    renders as the empty string. *)
Definition getCurrentUrl (f : VideoFormat) (backupIndex : Z) : string :=
  if backupIndex =? -1 then or_empty (SAMPLE_STREAMS f)
  else
    let backups := SAMPLE_BACKUPS f in
    if Z.of_nat (List.length backups) <=? backupIndex
    then or_empty (SAMPLE_STREAMS f)
    else if backupIndex <? 0 then ""
    else nth (Z.to_nat backupIndex) backups "".

(** [getBackupCount(format)] *)
Definition getBackupCount (f : VideoFormat) : Z :=
  Z.of_nat (List.length (SAMPLE_BACKUPS f)).

(** [resetBackupIndex()] *)
Definition resetBackupIndex (s : State) : State := setBackupUrlIndex (-1) s.

(** [resetPlayStatus()]: stops the test at once and arms a 50 ms timer. *)
Definition resetPlayStatus (s : State) : State :=
  let s := setIsTestActive false s in
  setResetTimers (S (resetTimers s)) s.

(** The body of the 50 ms timer of [resetPlayStatus]. *)
Definition resetPlayStatusFires (s : State) : State :=
  match resetTimers s with
  | O => s
  | S n =>
    let s := setResetTimers n s in
    let s := setStatus Loading s in
    match results s with
    | r :: rest =>
      if rstatus_eqb (r_status r) (Tested Loading)
      then setResults (fun _ => rest) s
      else s
    | [] => s
    end
  end.

(** [debouncedFormatChange(format)]: clears a pending change, stops the
    test, and arms the 100 ms timer. *)
Definition debouncedFormatChange (f : VideoFormat) (s : State) : State :=
  let s := setFormatChangeTimer None s in
  let s := setIsTestActive false s in
  setFormatChangeTimer (Some f) s.

(** The body of the 100 ms timer of [debouncedFormatChange]. *)
Definition formatChangeFires (s : State) : State :=
  match formatChangeTimer s with
  | None => s
  | Some f =>
    let s := setFormatChangeTimer None s in
    let s := setSelectedFormat f s in
    let s := resetBackupIndex s in
    setInputUrl (or_empty (SAMPLE_STREAMS f)) s
  end.

(** [debouncedUrlChange(url, resetBackup = true)] *)
Definition debouncedUrlChange (u : string) (resetBackup : bool)
    (s : State) : State :=
  let s := setUrlChangeTimer None s in
  let s := setIsTestActive false s in
  setUrlChangeTimer (Some (u, resetBackup)) s.

(** The body of the 100 ms timer of [debouncedUrlChange]. *)
Definition urlChangeFires (s : State) : State :=
  match urlChangeTimer s with
  | None => s
  | Some (u, resetBackup) =>
    let s := setUrlChangeTimer None s in
    let s := setInputUrl u s in
    if resetBackup then resetBackupIndex s else s
  end.

(** [handleUrlChange(e)] *)
Definition handleUrlChange (v : string) (s : State) : State :=
  debouncedUrlChange v true s.

(** [handleStartTest()]; [now] is the value of [Date.now()]. *)
Definition handleStartTest (now : Z) (s : State) : State :=
  if negb (truthy (inputUrl s)) then s
  else
    let s := setIsTestActive true s in
    let s := setStatus Loading s in
    let newResult :=
      mkResult (selectedFormat s) (inputUrl s) (Tested Loading) now in
    setResults (fun prev => firstn 10 (newResult :: prev)) s.

(** [updated[0] = { ...updated[0], status: newStatus }] on a copy. *)
Definition updateHead (newStatus : Status) (prev : list StreamResult)
    : list StreamResult :=
  match prev with
  | [] => []
  | r :: rest =>
    mkResult (r_format r) (r_url r) (Tested newStatus) (r_timestamp r) :: rest
  end.

(** [handleStatusChange(newStatus)] *)
Definition handleStatusChange (now : Z) (newStatus : Status)
    (s : State) : State :=
  let s := setStatus newStatus s in
  let s := setResults (updateHead newStatus) s in
  if status_eqb newStatus Error && negb (isTestActive s) then
    let format := selectedFormat s in
    let backupCount := getBackupCount format in
    if (0 <? backupCount) && (backupUrlIndex s =? -1) then
      let s := setBackupUrlIndex 0 s in
      let s := setInputUrl (getCurrentUrl format 0) s in
      handleStartTest now s
    else s
  else s.

(** [handleStopTest()] *)
Definition handleStopTest (s : State) : State := setIsTestActive false s.

(** JavaScript's [%] truncates towards zero: it is [Z.rem]. *)
Definition nextBackupIndex (current backupCount : Z) : Z :=
  Z.rem (current + 1) backupCount.

(** The [onClick] of the "Primary URL" button. *)
Definition clickPrimaryUrl (s : State) : State :=
  let s := resetBackupIndex s in
  debouncedUrlChange (or_empty (SAMPLE_STREAMS (selectedFormat s))) false s.

(** The [onClick] of the "Backup URL" button. *)
Definition clickBackupUrl (s : State) : State :=
  let currentFormat := selectedFormat s in
  let backupCount := getBackupCount currentFormat in
  if 0 <? backupCount then
    let nextIndex := nextBackupIndex (backupUrlIndex s) backupCount in
    let s := setBackupUrlIndex nextIndex s in
    debouncedUrlChange (getCurrentUrl currentFormat nextIndex) false s
  else s.

(** The [onClick] of "Try Primary Source". *)
Definition clickTryPrimary (now : Z) (s : State) : State :=
  let s := resetBackupIndex s in
  let s :=
    debouncedUrlChange (or_empty (SAMPLE_STREAMS (selectedFormat s))) false s in
  handleStartTest now s.

(** The [onClick] of "Try Next Backup Source": the restart is deferred to
    a 150 ms timer. *)
Definition clickTryNextBackup (s : State) : State :=
  let format := selectedFormat s in
  let backupCount := getBackupCount format in
  if 0 <? backupCount then
    let nextIndex := nextBackupIndex (backupUrlIndex s) backupCount in
    let s := setBackupUrlIndex nextIndex s in
    let s := debouncedUrlChange (getCurrentUrl format nextIndex) false s in
    setStartTimers (S (startTimers s)) s
  else s.

(** The body of the 150 ms timer armed by "Try Next Backup Source". *)
Definition startTimerFires (now : Z) (s : State) : State :=
  match startTimers s with
  | O => s
  | S n => handleStartTest now (setStartTimers n s)
  end.

(** The [onClick] of a format card. *)
Definition clickFormat (f : VideoFormat) (s : State) : State :=
  if negb (isTestActive s) then debouncedFormatChange f s else s.

(** The first [batch] of one iteration of the loop of [handleTestAll]. *)
Definition sweepSelect (f : VideoFormat) (s : State) : State :=
  let url := getCurrentUrl f (-1) in
  let s := setSelectedFormat f s in
  let s := resetBackupIndex s in
  setInputUrl url s.

(** The second [batch] of one iteration: the test of [f] starts. *)
Definition sweepBegin (now : Z) (f : VideoFormat) (s : State) : State :=
  let url := getCurrentUrl f (-1) in
  let s := setIsTestActive true s in
  let s := setStatus Loading s in
  let newResult := mkResult f url (Tested Loading) now in
  setResults (fun prev => firstn 10 (newResult :: prev)) s.

(** What can happen to the component between two renderings. *)
Inductive Event :=
| ClickFormat (f : VideoFormat)
| FormatTimerFires
| InputUrl (v : string)
| UrlTimerFires
| ClickPrimaryUrl
| ClickBackupUrl
| ClickStart (now : Z)
| ClickStop
| ClickTryPrimary (now : Z)
| ClickTryNextBackup
| StartTimerFires (now : Z)
| ResetTimerFires
| PlayerStatus (now : Z) (st : Status)
| SweepReset
| SweepSelect (f : VideoFormat)
| SweepBegin (now : Z) (f : VideoFormat)
| SweepEnd.

Definition step (e : Event) (s : State) : State :=
  match e with
  | ClickFormat f => clickFormat f s
  | FormatTimerFires => formatChangeFires s
  | InputUrl v => handleUrlChange v s
  | UrlTimerFires => urlChangeFires s
  | ClickPrimaryUrl => clickPrimaryUrl s
  | ClickBackupUrl => clickBackupUrl s
  | ClickStart now => handleStartTest now s
  | ClickStop => handleStopTest s
  | ClickTryPrimary now => clickTryPrimary now s
  | ClickTryNextBackup => clickTryNextBackup s
  | StartTimerFires now => startTimerFires now s
  | ResetTimerFires => resetPlayStatusFires s
  | PlayerStatus now st => handleStatusChange now st s
  | SweepReset => resetPlayStatus s
  | SweepSelect f => sweepSelect f s
  | SweepBegin now f => sweepBegin now f s
  | SweepEnd => setIsTestActive false s
  end.

Definition run (evs : list Event) (s : State) : State :=
  fold_left (fun s e => step e s) evs s.

(** What the environment contributes to a sweep: how many interval
    firings precede each timeout, and the status callbacks of the player
    during the wait for each format. *)
Record SweepEnv := mkSweepEnv {
  polls : nat;
  callbacks : VideoFormat -> nat -> list Status
}.

(** The wait of one sweep step, on this component's state. *)
Definition sweepWait (env : SweepEnv) (f : VideoFormat) (clock : Z)
    (s : State) : State * Z * bool :=
  waitLoop State status handleStatusChange (polls env) 0 (callbacks env f)
    clock s.

(** The [for] loop of [handleTestAll].  The 50 ms timer of
    [resetPlayStatus] was armed before the loop; it fires inside the first
    wait, before the player (mounted by [sweepBegin]) can report. *)
Fixpoint sweepLoop (env : SweepEnv) (formats : list VideoFormat) (clock : Z)
    (s : State) : State * Z :=
  match formats with
  | [] => (s, clock)
  | f :: rest =>
    let url := getCurrentUrl f (-1) in
    let s := sweepSelect f s in
    if negb (truthy url) then sweepLoop env rest clock s
    else
      let s := sweepBegin clock f s in
      let s := resetPlayStatusFires s in
      let '(s, elapsed, _) := sweepWait env f clock s in
      sweepLoop env rest (clock + elapsed + SETTLE_MS) s
  end.

(** [handleTestAll()] *)
Definition handleTestAll (env : SweepEnv) (clock : Z) (s : State)
    : State * Z :=
  let s := resetPlayStatus s in
  let '(s, clock) := sweepLoop env formatOptions clock s in
  (setIsTestActive false s, clock).

(** *** Vocabulary of the properties *)

(** The index is -1 or a valid index into the backups of the selected
    format. *)
Definition index_ok (s : State) : Prop :=
  backupUrlIndex s = -1 \/
  (0 <= backupUrlIndex s < getBackupCount (selectedFormat s)).

(** Whether [handleStatusChange(newStatus)] takes its automatic fallback
    branch in state [s]. *)
Definition autoFallback (newStatus : Status) (s : State) : bool :=
  status_eqb newStatus Error && negb (isTestActive s)
  && (0 <? getBackupCount (selectedFormat s)) && (backupUrlIndex s =? -1).

(** How many of the status callbacks [cbs], delivered in order, changed
    the result log. *)
Fixpoint logChanges (now : Z) (cbs : list Status) (s : State) : nat :=
  match cbs with
  | [] => O
  | st :: rest =>
    let s' := handleStatusChange now st s in
    ((if results_eqb (results s') (results s) then 0 else 1)
     + logChanges now rest s')%nat
  end.





End Tester.

(** ** The test controller, first version (four formats, no backups) *)

Module TesterV1.

Inductive VideoFormat := hls | dash | webrtc | mp4.

Record StreamResult := mkResult {
  r_format : VideoFormat;
  r_url : string;
  r_status : ResultStatus
}.

Definition SAMPLE_STREAMS (f : VideoFormat) : string :=
  match f with
  | hls => "https://test-streams.mux.dev/x36xhzz/x36xhzz.m3u8"
  | dash => "https://dash.akamaized.net/akamai/test/caption_test/ElephantsDream/elephants_dream_480p_heaac5_1.mpd"
  | webrtc => ""
  | mp4 => "https://test-videos.co.uk/vids/bigbuckbunny/mp4/h264/360/Big_Buck_Bunny_360_10s_1MB.mp4"
  end.

Definition formatOptions : list VideoFormat := [hls; dash; webrtc; mp4].

Record State := mkState {
  selectedFormat : VideoFormat;
  inputUrl : string;
  isTestActive : bool;
  status : Status;
  results : list StreamResult
}.

Definition initial : State :=
  mkState hls (SAMPLE_STREAMS hls) false Loading [].

(** [handleFormatChange(e)] *)
Definition handleFormatChange (f : VideoFormat) (s : State) : State :=
  mkState f (or_empty (SAMPLE_STREAMS f)) (isTestActive s) (status s)
    (results s).

(** [handleUrlChange(e)] *)
Definition handleUrlChange (v : string) (s : State) : State :=
  mkState (selectedFormat s) v (isTestActive s) (status s) (results s).

(** [handleStartTest()] *)
Definition handleStartTest (s : State) : State :=
  if negb (truthy (inputUrl s)) then s
  else
    let newResult :=
      mkResult (selectedFormat s) (inputUrl s) (Tested Loading) in
    mkState (selectedFormat s) (inputUrl s) true Loading
      (firstn 10 (newResult :: results s)).

Definition updateHead (newStatus : Status) (prev : list StreamResult)
    : list StreamResult :=
  match prev with
  | [] => []
  | r :: rest => mkResult (r_format r) (r_url r) (Tested newStatus) :: rest
  end.

(** [handleStatusChange(newStatus)] *)
Definition handleStatusChange (newStatus : Status) (s : State) : State :=
  mkState (selectedFormat s) (inputUrl s) (isTestActive s) newStatus
    (updateHead newStatus (results s)).

(** [handleStopTest()] *)
Definition handleStopTest (s : State) : State :=
  mkState (selectedFormat s) (inputUrl s) false (status s) (results s).

Definition sweepWait (npolls : nat) (w : nat -> list Status) (clock : Z)
    (s : State) : State * Z * bool :=
  waitLoop State status (fun _ => handleStatusChange) npolls 0 w clock s.

(** The [for] loop of [handleTestAll]. *)
Fixpoint sweepLoop (npolls : nat) (cbs : VideoFormat -> nat -> list Status)
    (formats : list VideoFormat) (clock : Z) (s : State) : State * Z :=
  match formats with
  | [] => (s, clock)
  | f :: rest =>
    let s := mkState f (or_empty (SAMPLE_STREAMS f)) (isTestActive s)
               (status s) (results s) in
    if negb (truthy (SAMPLE_STREAMS f)) then sweepLoop npolls cbs rest clock s
    else
      let newResult := mkResult f (SAMPLE_STREAMS f) (Tested Loading) in
      let s := mkState (selectedFormat s) (inputUrl s) true Loading
                 (firstn 10 (newResult :: results s)) in
      let '(s, elapsed, _) := sweepWait npolls (cbs f) clock s in
      sweepLoop npolls cbs rest (clock + elapsed + SETTLE_MS) s
  end.

(** [handleTestAll()] *)
Definition handleTestAll (npolls : nat)
    (cbs : VideoFormat -> nat -> list Status) (clock : Z) (s : State)
    : State * Z :=
  let '(s, clock) := sweepLoop npolls cbs formatOptions clock s in
  (handleStopTest s, clock).

(** *** Vocabulary of the properties *)

(** How many records of format [f] the log [l] holds. *)
Definition countFormatV1 (f : VideoFormat) (l : list StreamResult) : nat :=
  List.length
    (filter (fun r => match r_format r, f with
                      | hls, hls | dash, dash | webrtc, webrtc
                      | mp4, mp4 => true
                      | _, _ => false
                      end) l).

(** During a sweep step for [f]: the test is active, [f] is selected, and
    at most [c] records of format [g] are in the log. *)
Definition sweepingV1 (f g : VideoFormat) (c : nat) (s : State) : Prop :=
  isTestActive s = true /\ selectedFormat s = f
  /\ (countFormatV1 g (results s) <= c)%nat.


End TesterV1.

(** ** The player *)

Module Player.

(** The six kinds of handle the component keeps in its [let] variables:
    [hlsInstance], [dashInstance], [shakaInstance], [peerConnection],
    [webSocketConnection], [flvPlayer]. *)
Inductive Kind := KHls | KDash | KShaka | KPeer | KWs | KFlv.

(** [WebSocket.readyState]; an engine is [OPEN] from its construction
    until its release method is called, then [CLOSED]. *)
Inductive ReadyState := CONNECTING | OPEN | CLOSING | CLOSED.

(** Which of the three signaling handlers were installed on the socket. *)
Inductive Dialect := Generic | Janus | EchoTest.

(** A browser object owned by the component.  [h_gen] records which run
    of [initializePlayer] created it. *)
Record Handle := mkHandle {
  h_kind : Kind;
  h_gen : nat;
  h_ready : ReadyState
}.

Definition live (h : Handle) : bool :=
  match h_ready h with
  | CONNECTING | OPEN => true
  | CLOSING | CLOSED => false
  end.

Definition kind_eqb (a b : Kind) : bool :=
  match a, b with
  | KHls, KHls | KDash, KDash | KShaka, KShaka | KPeer, KPeer | KWs, KWs
  | KFlv, KFlv => true
  | _, _ => false
  end.

Inductive VideoOp :=
| VPause | VLoad | VRemoveSrc | VGetTracks | VPlay | VPlayAgain.

(** Messages the component sends on the signaling channel. *)
Inductive Outgoing :=
| OOffer                                  (* {type: "offer", sdp} *)
| OIce                                    (* {type: "ice", candidate} *)
| OCandidate                              (* {type: "candidate", candidate} *)
| OJanusCreate                            (* {janus: "create"} *)
| OJanusAttach (session : string)         (* {janus: "attach", session_id} *)
| OJanusOffer (session handle : option string)
| OJanusTrickle (session handle : string).

(** What the component does to the world outside its own variables. *)
Inductive Action :=
| ACallback (st : Status)            (* props.onStatusChange(st) *)
| ACreate (k : Kind)                 (* a constructor or factory is called *)
| ARelease (k : Kind)                (* destroy(), reset() or close() is called *)
| ANet (k : Kind) (url : string)     (* an engine is told to fetch or connect to [url] *)
| ASetSrc (url : string)             (* videoRef.src = url *)
| AVideo (op : VideoOp)
| ATrackStop (t : nat)
| AOverlay (heading detail : string) (* an overlay is added next to the video *)
| AOverlaysRemoved
| AStatusText (text : string)        (* statusEl.textContent = text *)
| AConsole (msg : string)            (* console.error(msg, ...) *)
| ASend (m : Outgoing).              (* webSocketConnection.send(...) *)

(** The [<video>] element behind [videoRef]. *)
Record Video := mkVideo {
  v_src : string;
  v_srcObject : option (list nat);    (* the tracks of the assigned stream *)
  v_overlays : list string;           (* overlays inserted by the component *)
  v_attached : bool                   (* has a [parentElement] *)
}.

Record Player := mkPlayer {
  props_url : string;
  props_format : VideoFormat;
  videoRef : option Video;
  hlsInstance : option Handle;
  dashInstance : option Handle;
  shakaInstance : option Handle;
  peerConnection : option Handle;
  webSocketConnection : option Handle;
  flvPlayer : option Handle;
  status : Status;
  sessionId : option string;          (* closure variables of the Janus handlers *)
  handleId : option string;
  wsDialect : Dialect;                (* which handlers the socket and the peer carry *)
  generation : nat;                   (* runs of [initializePlayer] so far *)
  pendingInits : nat;                 (* armed 50 ms timers of the effect *)
  leaked : list Handle                (* live handles no variable refers to *)
}.

(** What the browser decides: feature tests, and which calls raise. *)
Record Env := mkEnv {
  hlsSupported : bool;        (* Hls.isSupported() *)
  nativeHls : bool;           (* canPlayType("application/vnd.apple.mpegurl") *)
  flvSupported : bool;        (* typeof flvjs !== "undefined" && flvjs.isSupported() *)
  shakaSupported : bool;      (* shaka.Player.isBrowserSupported() *)
  hasRTC : bool;              (* window.RTCPeerConnection *)
  ctorThrows : Kind -> bool;  (* the constructor raises *)
  startThrows : Kind -> bool; (* a method called on the fresh instance raises *)
  destroyThrows : Kind -> bool;
  videoThrows : VideoOp -> bool;
  pcRejects : bool            (* a call on the peer connection raises or rejects *)
}.

(** *** A state and exception monad for the component's code

    A raised exception keeps the mutations made so far, as in
    JavaScript. *)

Inductive Outcome (A : Type) :=
| Normal (a : A) (p : Player) (out : list Action)
| Raised (msg : string) (p : Player) (out : list Action).
Arguments Normal {A} a p out.
Arguments Raised {A} msg p out.

(** A computation takes the state of the component to an outcome: a
    result or an exception, the new state, and the actions performed, in
    order. *)
Definition M (A : Type) := Player -> Outcome A.

Definition ret {A} (a : A) : M A := fun p => Normal a p [].

Definition bind {A B} (m : M A) (k : A -> M B) : M B :=
  fun p => match m p with
           | Normal a p' o1 =>
             match k a p' with
             | Normal b p'' o2 => Normal b p'' (o1 ++ o2)
             | Raised e p'' o2 => Raised e p'' (o1 ++ o2)
             end
           | Raised e p' o1 => Raised e p' o1
           end.

Definition raise {A} (msg : string) : M A := fun p => Raised msg p [].

(** [try { body } catch (e) { handler(e) }] *)
Definition try_catch (body : M unit) (handler : string -> M unit) : M unit :=
  fun p => match body p with
           | Normal a p' o => Normal a p' o
           | Raised e p' o1 =>
             match handler e p' with
             | Normal a p'' o2 => Normal a p'' (o1 ++ o2)
             | Raised e2 p'' o2 => Raised e2 p'' (o1 ++ o2)
             end
           end.

Definition gets {A} (f : Player -> A) : M A := fun p => Normal (f p) p [].
Definition modify (f : Player -> Player) : M unit :=
  fun p => Normal tt (f p) [].

(** The state a computation ends in, however it ends. *)
Definition final {A} (o : Outcome A) : Player :=
  match o with Normal _ p _ => p | Raised _ p _ => p end.

(** The actions it performed. *)
Definition emitted {A} (o : Outcome A) : list Action :=
  match o with Normal _ _ out => out | Raised _ _ out => out end.

Definition returns {A} (o : Outcome A) : bool :=
  match o with Normal _ _ _ => true | Raised _ _ _ => false end.

Declare Scope player_scope.
Delimit Scope player_scope with player.
Notation "x <- c ;; k" := (bind c (fun x => k))
  (at level 61, c at next level, right associativity) : player_scope.
Notation "c ;; k" := (bind c (fun _ => k))
  (at level 61, right associativity) : player_scope.
Local Open Scope player_scope.

Definition when (b : bool) (m : M unit) : M unit := if b then m else ret tt.

Definition may_throw (b : bool) (msg : string) : M unit :=
  if b then raise msg else ret tt.

(** *** Field updates *)

Definition slot (k : Kind) (p : Player) : option Handle :=
  match k with
  | KHls => hlsInstance p
  | KDash => dashInstance p
  | KShaka => shakaInstance p
  | KPeer => peerConnection p
  | KWs => webSocketConnection p
  | KFlv => flvPlayer p
  end.

Definition set_slot (k : Kind) (v : option Handle) (p : Player) : Player :=
  let pick k' old := if kind_eqb k k' then v else old in
  mkPlayer (props_url p) (props_format p) (videoRef p)
    (pick KHls (hlsInstance p)) (pick KDash (dashInstance p))
    (pick KShaka (shakaInstance p)) (pick KPeer (peerConnection p))
    (pick KWs (webSocketConnection p)) (pick KFlv (flvPlayer p))
    (status p) (sessionId p) (handleId p) (wsDialect p) (generation p)
    (pendingInits p) (leaked p).

Definition set_props (u : string) (f : VideoFormat) (p : Player) : Player :=
  mkPlayer u f (videoRef p) (hlsInstance p) (dashInstance p)
    (shakaInstance p) (peerConnection p) (webSocketConnection p)
    (flvPlayer p) (status p) (sessionId p) (handleId p) (wsDialect p)
    (generation p) (pendingInits p) (leaked p).

Definition set_video (v : option Video) (p : Player) : Player :=
  mkPlayer (props_url p) (props_format p) v (hlsInstance p) (dashInstance p)
    (shakaInstance p) (peerConnection p) (webSocketConnection p)
    (flvPlayer p) (status p) (sessionId p) (handleId p) (wsDialect p)
    (generation p) (pendingInits p) (leaked p).

Definition set_status (st : Status) (p : Player) : Player :=
  mkPlayer (props_url p) (props_format p) (videoRef p) (hlsInstance p)
    (dashInstance p) (shakaInstance p) (peerConnection p)
    (webSocketConnection p) (flvPlayer p) st (sessionId p) (handleId p)
    (wsDialect p) (generation p) (pendingInits p) (leaked p).

Definition set_janus (sid hid : option string) (p : Player) : Player :=
  mkPlayer (props_url p) (props_format p) (videoRef p) (hlsInstance p)
    (dashInstance p) (shakaInstance p) (peerConnection p)
    (webSocketConnection p) (flvPlayer p) (status p) sid hid
    (wsDialect p) (generation p) (pendingInits p) (leaked p).

Definition set_dialect (d : Dialect) (p : Player) : Player :=
  mkPlayer (props_url p) (props_format p) (videoRef p) (hlsInstance p)
    (dashInstance p) (shakaInstance p) (peerConnection p)
    (webSocketConnection p) (flvPlayer p) (status p) (sessionId p)
    (handleId p) d (generation p) (pendingInits p) (leaked p).

Definition set_generation (g : nat) (p : Player) : Player :=
  mkPlayer (props_url p) (props_format p) (videoRef p) (hlsInstance p)
    (dashInstance p) (shakaInstance p) (peerConnection p)
    (webSocketConnection p) (flvPlayer p) (status p) (sessionId p)
    (handleId p) (wsDialect p) g (pendingInits p) (leaked p).

Definition set_pending (n : nat) (p : Player) : Player :=
  mkPlayer (props_url p) (props_format p) (videoRef p) (hlsInstance p)
    (dashInstance p) (shakaInstance p) (peerConnection p)
    (webSocketConnection p) (flvPlayer p) (status p) (sessionId p)
    (handleId p) (wsDialect p) (generation p) n (leaked p).

Definition set_leaked (l : list Handle) (p : Player) : Player :=
  mkPlayer (props_url p) (props_format p) (videoRef p) (hlsInstance p)
    (dashInstance p) (shakaInstance p) (peerConnection p)
    (webSocketConnection p) (flvPlayer p) (status p) (sessionId p)
    (handleId p) (wsDialect p) (generation p) (pendingInits p) l.

(** *** Primitive statements *)

Definition emit (a : Action) : M unit := fun p => Normal tt p [a].

(** An assignment to one of the six variables.  A live handle that the
    variable held and that is overwritten is no longer reachable by the
    component: it is recorded as leaked. *)
Definition assign (k : Kind) (v : option Handle) : M unit :=
  modify (fun p =>
    let p := match slot k p with
             | Some old => if live old then set_leaked (old :: leaked p) p else p
             | None => p
             end in
    set_slot k v p).

(** [new K(...)] stored in its variable. *)
Definition create (env : Env) (k : Kind) (g : nat) : M unit :=
  may_throw (ctorThrows env k) "constructor failed" ;;
  emit (ACreate k) ;;
  assign k (Some (mkHandle k g (match k with KWs => CONNECTING | _ => OPEN end))).

(** The release block of the handle held in variable [k] is entered:
    [destroy()] for HLS and Shaka, [reset()] for DASH, [close()] for the
    peer connection and the socket, and the four calls [pause();
    unload(); detachMediaElement(); destroy()] for the FLV player.  What a
    raising library call leaves behind is not known to the component; the
    handle counts as released from the moment its release block is
    entered, and [destroyThrows env k] says that the block raises. *)
Definition release (env : Env) (k : Kind) : M unit :=
  emit (ARelease k) ;;
  modify (fun p =>
    match slot k p with
    | Some h =>
      set_slot k
        (Some (mkHandle (h_kind h) (h_gen h)
                 (match k with KWs => CLOSING | _ => CLOSED end))) p
    | None => p
    end) ;;
  may_throw (destroyThrows env k) "release failed".

Definition setStatus (st : Status) : M unit := modify (set_status st).

(** [props.onStatusChange(st)] *)
Definition onStatusChange (st : Status) : M unit := emit (ACallback st).

(** [setStatus(st); props.onStatusChange(st);] *)
Definition report (st : Status) : M unit :=
  setStatus st ;; onStatusChange st.

Definition console_error (msg : string) : M unit := emit (AConsole msg).

Definition statusText (text : string) : M unit := emit (AStatusText text).

Definition update_video (f : Video -> Video) : M unit :=
  modify (fun p => match videoRef p with
                   | Some v => set_video (Some (f v)) p
                   | None => p
                   end).

Definition set_v_src (u : string) (v : Video) : Video :=
  mkVideo u (v_srcObject v) (v_overlays v) (v_attached v).
Definition set_v_srcObject (o : option (list nat)) (v : Video) : Video :=
  mkVideo (v_src v) o (v_overlays v) (v_attached v).
Definition set_v_overlays (l : list string) (v : Video) : Video :=
  mkVideo (v_src v) (v_srcObject v) l (v_attached v).
Definition set_v_attached (b : bool) (v : Video) : Video :=
  mkVideo (v_src v) (v_srcObject v) (v_overlays v) b.

(** [videoRef.src = u] *)
Definition setSrc (u : string) : M unit :=
  emit (ASetSrc u) ;; update_video (set_v_src u).

(** A method of the video element that may raise. *)
Definition videoCall (env : Env) (op : VideoOp) : M unit :=
  emit (AVideo op) ;; may_throw (videoThrows env op) "video element failed".

(** [videoRef.parentElement?.insertAdjacentHTML("beforeend", ...)] or
    [appendChild]: nothing happens without a parent. *)
Definition addOverlay (heading detail : string) : M unit :=
  v <- gets videoRef ;;
  match v with
  | Some v =>
    if v_attached v then
      emit (AOverlay heading detail) ;;
      update_video (fun v => set_v_overlays (heading :: v_overlays v) v)
    else ret tt
  | None => ret tt
  end.

Fixpoint stopTracks (ts : list nat) : M unit :=
  match ts with
  | [] => ret tt
  | t :: rest => emit (ATrackStop t) ;; stopTracks rest
  end.

(** One block of [destroyPlayers]:
    [if (x) { try { x.release(); } catch (e) { console.error(msg, e); } x = null; }] *)
Definition releaseVariable (env : Env) (k : Kind) (msg : string) : M unit :=
  h <- gets (slot k) ;;
  match h with
  | Some _ =>
    try_catch (release env k) (fun _ => console_error msg) ;;
    assign k None
  | None => ret tt
  end.

(** The block of [destroyPlayers] for [webSocketConnection]: [close()] is
    called only on a socket that is open or connecting. *)
Definition closeSocket (env : Env) : M unit :=
  h <- gets webSocketConnection ;;
  match h with
  | Some ws =>
    try_catch
      (match h_ready ws with
       | OPEN | CONNECTING => release env KWs
       | CLOSING | CLOSED => ret tt
       end)
      (fun _ => console_error "Error closing WebSocket connection:") ;;
    assign KWs None
  | None => ret tt
  end.

(** The block of [destroyPlayers] that resets the video element. *)
Definition resetVideo (env : Env) : M unit :=
  v <- gets videoRef ;;
  match v with
  | Some v =>
    try_catch
      (match v_srcObject v with
       | Some tracks =>
         (* Stop all tracks in the stream *)
         videoCall env VGetTracks ;;
         stopTracks tracks ;;
         update_video (set_v_srcObject None)
       | None => ret tt
       end ;;
       (* Reset video element *)
       videoCall env VPause ;;
       setSrc "" ;;
       videoCall env VLoad)
      (fun _ => console_error "Error resetting video element:")
  | None => ret tt
  end.

(** The block of [destroyPlayers] that removes the overlays. *)
Definition clearOverlays : M unit :=
  v <- gets videoRef ;;
  match v with
  | Some v =>
    when (v_attached v)
      (emit AOverlaysRemoved ;; update_video (set_v_overlays []))
  | None => ret tt
  end.

(** [destroyPlayers()] *)
Definition destroyPlayers (env : Env) : M unit :=
  releaseVariable env KHls "Error destroying HLS instance:" ;;
  releaseVariable env KDash "Error resetting DASH instance:" ;;
  releaseVariable env KShaka "Error destroying Shaka instance:" ;;
  releaseVariable env KPeer "Error closing peer connection:" ;;
  closeSocket env ;;
  resetVideo env ;;
  clearOverlays ;;
  releaseVariable env KFlv "Error destroying FLV player:".

(** *** Strings of URLs *)

Definition lower_ascii (c : Ascii.ascii) : Ascii.ascii :=
  let n := Ascii.nat_of_ascii c in
  if (Nat.leb 65 n && Nat.leb n 90)%bool then Ascii.ascii_of_nat (n + 32)
  else c.

(** [s.toLowerCase()], on ASCII letters. *)
Fixpoint toLowerCase (s : string) : string :=
  match s with
  | EmptyString => EmptyString
  | String c s' => String (lower_ascii c) (toLowerCase s')
  end.

(** [s.includes(sub)] *)
Fixpoint includes (s sub : string) : bool :=
  if String.prefix sub s then true
  else match s with
       | EmptyString => false
       | String _ s' => includes s' sub
       end.

(** *** Engine initialisation *)

(** The ghost counter of runs of [initializePlayer]. *)
Definition next_generation : M unit :=
  modify (fun p => set_generation (S (generation p)) p).

(** The first call on the fresh instance of kind [k], told to fetch or
    connect to [url]. *)
Definition start (env : Env) (k : Kind) (url : string) : M unit :=
  may_throw (startThrows env k) "engine start failed" ;;
  emit (ANet k url).

(** [initHLS()] *)
Definition initHLS (env : Env) : M unit :=
  v <- gets videoRef ;;
  match v with
  | None => ret tt
  | Some _ =>
    g <- gets generation ;;
    if hlsSupported env then
      create env KHls g ;;
      (* hlsInstance.attachMedia(videoRef); the source is loaded from the
         MEDIA_ATTACHED handler *)
      may_throw (startThrows env KHls) "attachMedia failed"
    else if nativeHls env then
      u <- gets props_url ;;
      setSrc u
    else
      console_error "HLS is not supported on this browser" ;;
      report Error
  end.

(** [initDASH()] *)
Definition initDASH (env : Env) : M unit :=
  v <- gets videoRef ;;
  match v with
  | None => ret tt
  | Some _ =>
    try_catch
      (g <- gets generation ;;
       u <- gets props_url ;;
       create env KDash g ;;
       start env KDash u)
      (fun _ =>
         console_error "Error initializing DASH player:" ;;
         report Error)
  end.

(** [initFLV()] *)
Definition initFLV (env : Env) : M unit :=
  v <- gets videoRef ;;
  match v with
  | None => ret tt
  | Some _ =>
    try_catch
      (g <- gets generation ;;
       u <- gets props_url ;;
       create env KFlv g ;;
       start env KFlv u ;;
       try_catch
         (videoCall env VPlay)
         (fun _ =>
            try_catch
              (videoCall env VPlayAgain ;; report Success)
              (fun _ =>
                 console_error "Error playing FLV (fallback):" ;;
                 report Error)))
      (fun _ =>
         console_error "Error initializing FLV player:" ;;
         report Error)
  end.

(** [connectToJanusServer(statusOverlay, statusEl)] *)
Definition connectToJanusServer (env : Env) : M unit :=
  v <- gets videoRef ;;
  match v with
  | None => ret tt
  | Some _ =>
    try_catch
      (statusText "Connecting to Janus WebRTC server..." ;;
       g <- gets generation ;;
       u <- gets props_url ;;
       create env KWs g ;;
       emit (ANet KWs u) ;;
       modify (set_dialect Janus) ;;
       modify (set_janus None None))
      (fun _ =>
         console_error "Error connecting to Janus:" ;;
         report Error)
  end.

(** [connectToEchoTestServer(statusOverlay, statusEl)] *)
Definition connectToEchoTestServer (env : Env) : M unit :=
  v <- gets videoRef ;;
  match v with
  | None => ret tt
  | Some _ =>
    try_catch
      (statusText "Connecting to Echo Test server..." ;;
       g <- gets generation ;;
       u <- gets props_url ;;
       create env KWs g ;;
       emit (ANet KWs u) ;;
       modify (set_dialect EchoTest))
      (fun _ =>
         console_error "Error connecting to Echo Test server:" ;;
         report Error)
  end.

(** [initWebRTC()] *)
Definition initWebRTC (env : Env) : M unit :=
  v <- gets videoRef ;;
  match v with
  | None => ret tt
  | Some _ =>
    try_catch
      (when (negb (hasRTC env))
         (raise "WebRTC is not supported by this browser") ;;
       addOverlay "Connecting to WebRTC stream..." "Initializing connection..." ;;
       u <- gets props_url ;;
       let url := toLowerCase u in
       if includes url "janus" then
         statusText "Detected Janus WebRTC server" ;;
         connectToJanusServer env
       else if includes url "echotest" then
         statusText "Detected Echo Test server" ;;
         connectToEchoTestServer env
       else
         g <- gets generation ;;
         create env KPeer g ;;
         modify (set_dialect Generic) ;;
         try_catch
           (when (negb (truthy u)) (raise "WebRTC URL is required") ;;
            statusText ("Connecting to signaling server: " ++ u) ;;
            create env KWs g ;;
            emit (ANet KWs u))
           (fun msg =>
              console_error "Error connecting to signaling server:" ;;
              report Error ;;
              statusText ("Error connecting to server: " ++ msg)))
      (fun msg =>
         console_error "Error initializing WebRTC:" ;;
         report Error ;;
         addOverlay "WebRTC initialization failed" msg)
  end.

(** The [case "smooth"] arm of [initializePlayer]. *)
Definition initSmooth (env : Env) : M unit :=
  try_catch
    (if shakaSupported env then
       g <- gets generation ;;
       u <- gets props_url ;;
       create env KShaka g ;;
       start env KShaka u
     else raise "Shaka Player not supported in this browser")
    (fun _ =>
       console_error "Error initializing Smooth Streaming:" ;;
       report Error).

(** The part of [initializePlayer()] that follows the teardown: the
    element and the status are reset, then the engine of the format is
    started. *)
Definition initializeEngine (env : Env) : M unit :=
  next_generation ;;
  (* Reset video element *)
  setSrc "" ;;
  setStatus Loading ;;
  onStatusChange Loading ;;
  try_catch
    (f <- gets props_format ;;
     match f with
     | hls => initHLS env
     | dash => initDASH env
     | webrtc => initWebRTC env
     | mp4 => u <- gets props_url ;; setSrc u
     | rtmp =>
       report Error ;;
       addOverlay "RTMP requires a custom implementation"
         "This format typically requires a Flash-based player or specialized library"
     | rtsp =>
       report Error ;;
       addOverlay "RTSP is not supported in browsers"
         "This protocol requires a native application or proxy server"
     | srt =>
       report Error ;;
       addOverlay "SRT is not supported in browsers"
         "This protocol requires a native application or transcoding to HLS/DASH"
     | flv =>
       if flvSupported env then initFLV env
       else
         report Error ;;
         addOverlay "FLV playback is not supported"
           "Your browser does not support FLV playback"
     | smooth => initSmooth env
     end)
    (fun _ =>
       console_error "Error initializing player:" ;;
       report Error).

(** [initializePlayer()] *)
Definition initializePlayer (env : Env) : M unit :=
  v <- gets videoRef ;;
  match v with
  | None => ret tt
  | Some _ =>
    (* Clean up any existing instances *)
    destroyPlayers env ;;
    initializeEngine env
  end.

(** *** Signaling

    An incoming frame, as far as the handlers look at it.  A field that
    is absent, or present with a falsy value, is [None] or [false]. *)
Record Msg := mkMsg {
  m_type : option string;        (* message.type *)
  m_janus : option string;       (* response.janus *)
  m_sdp : bool;                  (* message.sdp is truthy *)
  m_candidate : bool;            (* message.candidate is truthy *)
  m_error : option string;       (* message.error *)
  m_data_id : option string;     (* response.data?.id, when truthy *)
  m_plugindata : bool;           (* response.plugindata is truthy *)
  m_jsep : option string         (* response.jsep, when truthy: its [type] *)
}.

(** [event.data]: text that is not JSON, the JSON value [null], or a JSON
    value whose properties can be read. *)
Inductive Incoming := NotJson | JsonNull | JsonValue (m : Msg).

Definition is_str (o : option string) (v : string) : bool :=
  match o with Some x => String.eqb x v | None => false end.

Definition is_some {A} (o : option A) : bool :=
  match o with Some _ => true | None => false end.

(** [JSON.parse(event.data)] followed by the first property access. *)
Definition parse (inc : Incoming) : M Msg :=
  match inc with
  | NotJson => raise "Unexpected token in JSON"
  | JsonNull => raise "Cannot read properties of null"
  | JsonValue m => ret m
  end.

(** [webSocketConnection?.send(JSON.stringify(m))] *)
Definition sendWs (m : Outgoing) : M unit :=
  ws <- gets webSocketConnection ;;
  match ws with
  | Some _ => emit (ASend m)
  | None => ret tt
  end.

(** The generation of the socket whose handler is running. *)
Definition socket_generation (p : Player) : nat :=
  match webSocketConnection p with
  | Some ws => h_gen ws
  | None => generation p
  end.

(** [webSocketConnection.onopen] of [initWebRTC]. *)
Definition genericOnOpen (env : Env) : M unit :=
  statusText "Connected to signaling server, creating offer..." ;;
  try_catch
    (pc <- gets peerConnection ;;
     match pc with
     | Some _ =>
       (* addTransceiver, createOffer, setLocalDescription *)
       may_throw (pcRejects env) "createOffer failed" ;;
       ws <- gets webSocketConnection ;;
       match ws with
       | Some _ =>
         emit (ASend OOffer) ;;
         statusText "Offer sent, waiting for answer..."
       | None => ret tt
       end
     | None => ret tt
     end)
    (fun msg =>
       console_error "Error creating offer:" ;;
       report Error ;;
       statusText ("Error creating offer: " ++ msg)).

(** [webSocketConnection.onmessage] of [initWebRTC]. *)
Definition genericOnMessage (env : Env) (inc : Incoming) : M unit :=
  try_catch
    (message <- parse inc ;;
     pc <- gets peerConnection ;;
     if is_str (m_type message) "answer" && m_sdp message && is_some pc then
       statusText "Received answer, setting remote description..." ;;
       may_throw (pcRejects env) "setRemoteDescription failed" ;;
       statusText "Remote description set, establishing connection..."
     else if is_str (m_type message) "ice" && m_candidate message
             && is_some pc then
       statusText "Received ICE candidate..." ;;
       may_throw (pcRejects env) "addIceCandidate failed"
     else if is_str (m_type message) "error" then
       raise (match m_error message with
              | Some e => if truthy e then e else "Unknown server error"
              | None => "Unknown server error"
              end)
     else ret tt)
    (fun msg =>
       console_error "Error handling WebSocket message:" ;;
       report Error ;;
       statusText ("Error handling message: " ++ msg)).

(** [webSocketConnection.onopen] of [connectToJanusServer]. *)
Definition janusOnOpen : M unit :=
  statusText "Connected to Janus, creating session..." ;;
  sendWs OJanusCreate.

(** [webSocketConnection.onmessage] of [connectToJanusServer]. *)
Definition janusOnMessage (env : Env) (inc : Incoming) : M unit :=
  try_catch
    (response <- parse inc ;;
     statusText ("Janus: " ++ match m_janus response with
                              | Some j => j
                              | None => "undefined"
                              end) ;;
     if is_str (m_janus response) "success" && is_some (m_data_id response)
     then
       (* Session created, attach to EchoTest plugin *)
       modify (fun p => set_janus (m_data_id response) (handleId p) p) ;;
       sendWs (OJanusAttach match m_data_id response with
                            | Some i => i
                            | None => ""
                            end)
     else if is_str (m_janus response) "success"
             && is_some (m_data_id response)
             && negb (m_plugindata response) then
       (* Plugin attached, send offer *)
       modify (fun p => set_janus (sessionId p) (m_data_id response) p) ;;
       g <- gets socket_generation ;;
       create env KPeer g ;;
       may_throw (pcRejects env) "createOffer failed" ;;
       sid <- gets sessionId ;;
       hid <- gets handleId ;;
       sendWs (OJanusOffer sid hid)
     else if is_str (m_janus response) "event" && is_some (m_jsep response)
     then
       pc <- gets peerConnection ;;
       if is_str (m_jsep response) "answer" && is_some pc then
         may_throw (pcRejects env) "setRemoteDescription failed" ;;
         statusText "Received and set remote description"
       else ret tt
     else ret tt)
    (fun _ =>
       console_error "Error handling Janus message:" ;;
       report Error).

(** [webSocketConnection.onopen] of [connectToEchoTestServer].  The
    handler is [async] and the constructor is outside its [try]: if it
    raises, the handler ends there. *)
Definition echoOnOpen (env : Env) : M unit :=
  statusText "Connected to Echo Test server, creating offer..." ;;
  g <- gets socket_generation ;;
  create env KPeer g ;;
  try_catch
    (may_throw (pcRejects env) "createOffer failed" ;;
     ws <- gets webSocketConnection ;;
     match ws with
     | Some _ =>
       emit (ASend OOffer) ;;
       statusText "Offer sent, waiting for answer..."
     | None => ret tt
     end)
    (fun _ =>
       console_error "Error creating offer:" ;;
       report Error).

(** [webSocketConnection.onmessage] of [connectToEchoTestServer]. *)
Definition echoOnMessage (env : Env) (inc : Incoming) : M unit :=
  try_catch
    (message <- parse inc ;;
     pc <- gets peerConnection ;;
     if is_str (m_type message) "answer" && is_some pc then
       may_throw (pcRejects env) "setRemoteDescription failed" ;;
       statusText "Received answer, connection established"
     else if is_str (m_type message) "candidate" && is_some pc then
       may_throw (pcRejects env) "addIceCandidate failed"
     else ret tt)
    (fun _ =>
       console_error "Error handling message:" ;;
       report Error).

Definition onOpen (env : Env) (d : Dialect) : M unit :=
  match d with
  | Generic => genericOnOpen env
  | Janus => janusOnOpen
  | EchoTest => echoOnOpen env
  end.

Definition onMessage (env : Env) (d : Dialect) (inc : Incoming) : M unit :=
  match d with
  | Generic => genericOnMessage env inc
  | Janus => janusOnMessage env inc
  | EchoTest => echoOnMessage env inc
  end.

(** [webSocketConnection.onerror] *)
Definition onError (d : Dialect) : M unit :=
  match d with
  | Generic =>
    console_error "WebSocket error:" ;;
    report Error ;;
    statusText "WebSocket connection error"
  | Janus =>
    console_error "Janus WebSocket error:" ;;
    report Error
  | EchoTest => report Error
  end.

(** [webSocketConnection.onclose] *)
Definition onClose (d : Dialect) : M unit :=
  st <- gets status ;;
  if negb (status_eqb st Success) then
    report Error ;;
    match d with
    | Generic => statusText "Connection to signaling server closed"
    | Janus => statusText "Janus connection closed"
    | EchoTest => ret tt
    end
  else ret tt.

(** [peerConnection.iceConnectionState] *)
Inductive IceState := IceConnected | IceFailed | IceDisconnected | IceOther.

(** [peerConnection.oniceconnectionstatechange]; the Janus code installs
    none. *)
Definition onIce (d : Dialect) (st : IceState) : M unit :=
  match d, st with
  | Generic, (IceFailed | IceDisconnected) =>
    statusText "ICE connection state" ;;
    report Error ;;
    statusText "Connection failed. Check server or try a different URL."
  | Generic, IceConnected =>
    statusText "ICE connection state" ;;
    report Success
  | Generic, IceOther => statusText "ICE connection state"
  | EchoTest, IceConnected =>
    statusText "Connection state" ;;
    report Success
  | EchoTest, IceFailed =>
    statusText "Connection state" ;;
    report Error
  | EchoTest, _ => statusText "Connection state"
  | Janus, _ => ret tt
  end.

(** *** The component as a transition system *)

(** The body of [createEffect]. *)
Definition effect (env : Env) : M unit :=
  u <- gets props_url ;;
  if truthy u then
    (* Clean up previous player first *)
    destroyPlayers env ;;
    modify (fun p => set_pending (S (pendingInits p)) p)
  else ret tt.

(** The body of [onCleanup]. *)
Definition cleanup (env : Env) : M unit :=
  destroyPlayers env ;;
  v <- gets videoRef ;;
  match v with
  | Some _ =>
    try_catch
      (videoCall env VPause ;;
       videoCall env VRemoveSrc ;;
       update_video (set_v_src "") ;;
       videoCall env VLoad)
      (fun _ => console_error "Error cleaning up video element:")
  | None => ret tt
  end.

(** What can happen to the component.  The browser delivers [open] and
    [message] only to a socket that has not been closed, and ICE and
    track events only to a peer connection that has not been closed; the
    [close] and [error] events of a socket that a teardown closed arrive
    as the two stale events.  A handler runs to completion before the
    next event; the outcome of the calls it awaits is part of [Env]. *)
Inductive Event :=
| Mount                                   (* the element is rendered, the effect runs *)
| PropsChange (u : string) (f : VideoFormat)
| TimerFires                              (* a 50 ms timer of the effect *)
| Unmount
| HlsMediaAttached
| WsOpen
| WsMessage (inc : Incoming)
| WsError
| WsClosed
| StaleWsError (d : Dialect)              (* events of a socket closed by teardown *)
| StaleWsClosed (d : Dialect)
| Ice (st : IceState)
| Track (tracks : list nat)
| EngineReports (st : Status).            (* any other engine or element handler *)

Definition set_ready (k : Kind) (r : ReadyState) : M unit :=
  modify (fun p => match slot k p with
                   | Some h => set_slot k (Some (mkHandle (h_kind h) (h_gen h) r)) p
                   | None => p
                   end).

Definition handle (env : Env) (e : Event) : M unit :=
  match e with
  | Mount =>
    v <- gets videoRef ;;
    match v with
    | None =>
      modify (set_video (Some (mkVideo "" None [] true))) ;;
      effect env
    | Some _ => ret tt
    end
  | PropsChange u f =>
    modify (set_props u f) ;;
    v <- gets videoRef ;;
    match v with
    | Some _ => effect env
    | None => ret tt
    end
  | TimerFires =>
    n <- gets pendingInits ;;
    match n with
    | O => ret tt
    | S n' => modify (set_pending n') ;; initializePlayer env
    end
  | Unmount =>
    cleanup env ;;
    update_video (set_v_attached false)
  | HlsMediaAttached =>
    (* hlsInstance?.loadSource(props.url) *)
    h <- gets hlsInstance ;;
    match h with
    | Some _ => u <- gets props_url ;; emit (ANet KHls u)
    | None => ret tt
    end
  | WsOpen =>
    ws <- gets webSocketConnection ;;
    match ws with
    | Some ws =>
      match h_ready ws with
      | CONNECTING =>
        set_ready KWs OPEN ;;
        d <- gets wsDialect ;;
        onOpen env d
      | _ => ret tt
      end
    | None => ret tt
    end
  | WsMessage inc =>
    ws <- gets webSocketConnection ;;
    match ws with
    | Some ws =>
      match h_ready ws with
      | OPEN => d <- gets wsDialect ;; onMessage env d inc
      | _ => ret tt
      end
    | None => ret tt
    end
  | WsError =>
    ws <- gets webSocketConnection ;;
    match ws with
    | Some ws => d <- gets wsDialect ;; onError d
    | None => ret tt
    end
  | WsClosed =>
    ws <- gets webSocketConnection ;;
    match ws with
    | Some ws =>
      match h_ready ws with
      | CLOSED => ret tt
      | _ => set_ready KWs CLOSED ;; d <- gets wsDialect ;; onClose d
      end
    | None => ret tt
    end
  | StaleWsError d => onError d
  | StaleWsClosed d => onClose d
  | Ice st =>
    pc <- gets peerConnection ;;
    match pc with
    | Some pc => if live pc then d <- gets wsDialect ;; onIce d st else ret tt
    | None => ret tt
    end
  | Track tracks =>
    pc <- gets peerConnection ;;
    match pc with
    | Some pc =>
      if live pc then update_video (set_v_srcObject (Some tracks)) else ret tt
    | None => ret tt
    end
  | EngineReports st => report st
  end.

(** One event, handled to completion; an exception that escapes a handler
    ends the handler and nothing else. *)
Definition step (env : Env) (e : Event) (p : Player) : Player :=
  final (handle env e p).

Definition run (evs : list (Env * Event)) (p : Player) : Player :=
  fold_left (fun p ee => step (fst ee) (snd ee) p) evs p.

(** Everything the component did during a run, in order. *)
Fixpoint history (evs : list (Env * Event)) (p : Player) : list Action :=
  match evs with
  | [] => []
  | (env, e) :: rest =>
    (emitted (handle env e p) ++ history rest (step env e p))%list
  end.

(** The component when it is created. *)
Definition created (u : string) (f : VideoFormat) : Player :=
  mkPlayer u f None None None None None None None Loading None None Generic
    0 0 [].

(** *** Vocabulary of the properties *)

Definition isRelease (a : Action) : bool :=
  match a with ARelease _ => true | _ => false end.

Definition isCreate (a : Action) : bool :=
  match a with ACreate _ => true | _ => false end.

Definition isCallback (a : Action) : bool :=
  match a with ACallback _ => true | _ => false end.

(** Actions that put bytes on the network: an engine or socket given a
    URL, a frame sent, a non-empty source assigned to the element. *)
Definition isNetworkIO (a : Action) : bool :=
  match a with
  | ANet _ _ | ASend _ => true
  | ASetSrc u => truthy u
  | _ => false
  end.

(** The actions a teardown may perform. *)
Definition teardownAction (a : Action) : bool :=
  match a with
  | ARelease _ | AConsole _ | AVideo _ | ATrackStop _ | AOverlaysRemoved => true
  | ASetSrc u => negb (truthy u)
  | _ => false
  end.

(** All six variables are null. *)
Definition quiet (p : Player) : Prop := forall k, slot k p = None.

(** The same element, attached or not, possibly with other contents. *)
Definition same_element (a b : option Video) : Prop :=
  match a, b with
  | Some x, Some y => v_attached x = v_attached y
  | None, None => True
  | _, _ => False
  end.






Definition isTrackStop (a : Action) : bool :=
  match a with ATrackStop _ => true | _ => false end.

(** The element, if any, has no stream assigned. *)
Definition noTracks (v : option Video) : Prop :=
  match v with
  | Some v => v_srcObject v = None
  | None => True
  end.

(** Whether one of the branches of a message handler takes the message.
    [pc] says whether [peerConnection] is non-null. *)
Definition genericTakes (m : Msg) (pc : bool) : bool :=
  (is_str (m_type m) "answer" && m_sdp m && pc)
  || (is_str (m_type m) "ice" && m_candidate m && pc)
  || is_str (m_type m) "error".

Definition janusTakes (m : Msg) : bool :=
  (is_str (m_janus m) "success" && is_some (m_data_id m))
  || (is_str (m_janus m) "event" && is_some (m_jsep m)).

Definition echoTakes (m : Msg) (pc : bool) : bool :=
  (is_str (m_type m) "answer" && pc)
  || (is_str (m_type m) "candidate" && pc).



(** The frame [{janus: j, data: {id: i}}] and the frame [{janus: j}]. *)
Definition janusFrame (j : string) (i : option string) : Msg :=
  mkMsg None (Some j) false false None i false None.


(** The component after its first rendering, before any effect. *)
Definition mounted (u : string) (f : VideoFormat) : Player :=
  set_video (Some (mkVideo "" None [] true)) (created u f).

(** A browser with every feature and no failing call. *)
Definition plainEnv : Env :=
  mkEnv true false true true true (fun _ => false) (fun _ => false)
    (fun _ => false) (fun _ => false) false.

(** A Janus session up to the attachment: the component is mounted, its
    timer fires, the socket opens, and the server answers [create] and
    [attach] with success. *)
Definition janusUrl : string := "wss://webrtc.live-video.net/janus".

Definition janusSession : list (Env * Event) :=
  [ (plainEnv, Mount); (plainEnv, TimerFires); (plainEnv, WsOpen);
    (plainEnv, WsMessage (JsonValue (janusFrame "success" (Some "4711"))));
    (plainEnv, WsMessage (JsonValue (janusFrame "success" (Some "815")))) ].

(** A mounted player whose element shows a stream of two tracks. *)
Definition streaming : Player :=
  set_video (Some (mkVideo "" (Some [1; 2]%nat) [] true))
    (created "wss://demo.cloudwebrtc.com:8443/ws" webrtc).

(** The status last passed to [props.onStatusChange] by the actions [l],
    or [d] when they hold no callback. *)
Fixpoint lastCallback (l : list Action) (d : Status) : Status :=
  match l with
  | [] => d
  | ACallback st :: rest => lastCallback rest st
  | _ :: rest => lastCallback rest d
  end.

(** The statuses passed to [props.onStatusChange], in order. *)
Definition callbacks (l : list Action) : list Status :=
  flat_map (fun a => match a with ACallback st => [st] | _ => [] end) l.

Definition reportsSuccess (a : Action) : bool :=
  match a with ACallback Success => true | _ => false end.

Definition isJanusOffer (a : Action) : bool :=
  match a with ASend (OJanusOffer _ _) => true | _ => false end.

(** The [status] signal follows the callbacks of a computation. *)
Definition mirrors {A} (c : M A) : Prop :=
  forall p, status (final (c p)) = lastCallback (emitted (c p)) (status p).

(** While the Janus handlers are installed there is no peer connection. *)
Definition janusIdle (p : Player) : Prop :=
  wsDialect p = Janus -> peerConnection p = None.

Definition keepsIdle {A} (c : M A) : Prop :=
  forall p, janusIdle p -> janusIdle (final (c p)).

(** The state [initializePlayer] starts the engine from: [p] after the
    teardown, with element [v'] and [n] timers pending. *)
Definition torn_down (p : Player) (v' : Video) (n : nat) : Player :=
  mkPlayer (props_url p) (props_format p) (Some v') None None None None None
    None (status p) (sessionId p) (handleId p) (wsDialect p) (generation p)
    n (leaked p).

(** The statuses one run of [initializePlayer] for format [f] may pass to
    the callback. *)
Definition reportsOf (f : VideoFormat) (l : list Status) : bool :=
  match l with
  | [Loading] | [Loading; Error] => true
  | [Loading; Success] => format_eqb f flv
  | _ => false
  end.

(** The signaling dialect [initWebRTC] picks for a URL. *)
Definition dialectOf (u : string) : Dialect :=
  if includes (toLowerCase u) "janus" then Janus
  else if includes (toLowerCase u) "echotest" then EchoTest
  else Generic.


End Player.

(** ** The player, later version: the RTMP arm

    The later version of the component differs from the one above, for
    the formats without a browser playback path, only in the [case "rtmp"]
    arm of [initializePlayer], which tries HTTP-FLV through flv.js and
    probes an HLS alternative.  [destroyPlayers] and the arms for RTSP and
    SRT are the same text. *)

Module PlayerV2.
Import Player.
Local Open Scope player_scope.

(** [s.startsWith(pre)] *)
Definition startsWith (s pre : string) : bool := String.prefix pre s.

(** [s.endsWith(suf)] *)
Definition endsWith (s suf : string) : bool :=
  let ls := String.length s in
  let lf := String.length suf in
  if Nat.ltb ls lf then false
  else String.eqb (String.substring (ls - lf) lf s) suf.

(** The text after the first [n] characters. *)
Definition dropChars (n : nat) (s : string) : string :=
  String.substring n (String.length s - n) s.

(** [parts[0]] and [parts.slice(1).join("/")] for [parts = s.split("/")]. *)
Fixpoint splitFirstSlash (s : string) : string * string :=
  match s with
  | EmptyString => (EmptyString, EmptyString)
  | String c rest =>
    if Ascii.eqb c "/"%char then (EmptyString, rest)
    else let '(d, p) := splitFirstSlash rest in (String c d, p)
  end.

(** [showRtmpFallbackOptions()] *)
Definition showRtmpFallbackOptions : M unit :=
  report Error ;;
  addOverlay "RTMP Playback Not Supported"
    "Modern browsers can't play RTMP streams directly since Flash is deprecated.".

(** [tryHlsAlternative(rtmpUrl)].  The probing engine [tempHls] is held
    by no variable of the component. *)
Definition tryHlsAlternative (env : Env) (rtmpUrl : string) : M unit :=
  if negb (startsWith rtmpUrl "rtmp://") then ret tt
  else
    try_catch
      (let urlWithoutProtocol := dropChars 7 rtmpUrl in
       let '(domain, path) := splitFirstSlash urlWithoutProtocol in
       let variant0 := "https://" ++ domain ++ "/" ++ path ++ "/playlist.m3u8" in
       when (hlsSupported env)
         (may_throw (ctorThrows env KHls) "constructor failed" ;;
          emit (ACreate KHls) ;;
          g <- gets generation ;;
          modify (fun p => set_leaked (mkHandle KHls g OPEN :: leaked p) p) ;;
          start env KHls variant0))
      (fun _ => console_error "Error trying HLS alternative:").

(** The [case "rtmp"] arm of [initializePlayer]. *)
Definition rtmpArm (env : Env) : M unit :=
  try_catch
    (if flvSupported env then
       u <- gets props_url ;;
       let httpFlvUrl :=
         if startsWith u "rtmp://" then
           let h := "https://" ++ dropChars 7 u in
           if negb (endsWith h ".flv") then h ++ ".flv" else h
         else u in
       when (startsWith u "rtmp://") (tryHlsAlternative env u) ;;
       g <- gets generation ;;
       create env KFlv g ;;
       start env KFlv httpFlvUrl
     else showRtmpFallbackOptions)
    (fun _ =>
       console_error "Error initializing RTMP fallback:" ;;
       showRtmpFallbackOptions).

(** The part of [initializePlayer()] that follows the teardown.  The arms
    of the other six formats are not modelled for this version: they are
    the parameter [others]. *)
Definition initializeEngine (env : Env) (others : VideoFormat -> M unit)
    : M unit :=
  next_generation ;;
  setSrc "" ;;
  setStatus Loading ;;
  onStatusChange Loading ;;
  try_catch
    (f <- gets props_format ;;
     match f with
     | rtmp => rtmpArm env
     | rtsp =>
       report Error ;;
       addOverlay "RTSP is not supported in browsers"
         "This protocol requires a native application or proxy server"
     | srt =>
       report Error ;;
       addOverlay "SRT is not supported in browsers"
         "This protocol requires a native application or transcoding to HLS/DASH"
     | f => others f
     end)
    (fun _ =>
       console_error "Error initializing player:" ;;
       report Error).

(** [initializePlayer()] *)
Definition initializePlayer (env : Env) (others : VideoFormat -> M unit)
    : M unit :=
  v <- gets videoRef ;;
  match v with
  | None => ret tt
  | Some _ =>
    destroyPlayers env ;;
    initializeEngine env others
  end.

(** *** Vocabulary of the properties *)

(** The value of [httpFlvUrl] in the RTMP arm when the player is
    created. *)
Definition httpFlvUrl (u : string) : string :=
  if startsWith u "rtmp://" then
    let h := "https://" ++ dropChars 7 u in
    if negb (endsWith h ".flv") then h ++ ".flv" else h
  else u.

(** The actions of [tryHlsAlternative]. *)
Definition isProbeAction (a : Action) : bool :=
  match a with
  | ACreate KHls | ANet KHls _ | AConsole _ => true
  | _ => false
  end.

Fixpoint hasSlash (s : string) : bool :=
  match s with
  | EmptyString => false
  | String c rest => Ascii.eqb c "/"%char || hasSlash rest
  end.


End PlayerV2.

(** * Properties *)

(** ** Shared facts *)

Lemma format_eqb_refl f : format_eqb f f = true.
Proof. destruct f; reflexivity. Qed.

Lemma format_eqb_eq a b : format_eqb a b = true <-> a = b.
Proof. destruct a, b; simpl; split; intro H; try reflexivity; discriminate. Qed.


Lemma status_eqb_refl a : status_eqb a a = true.
Proof. destruct a; reflexivity. Qed.

Lemma truthy_false_iff u : truthy u = false <-> u = "".
Proof.
  unfold truthy. rewrite negb_false_iff. apply String.eqb_eq.
Qed.

Lemma or_empty_id u : or_empty u = u.
Proof.
  unfold or_empty. destruct (truthy u) eqn:E; [reflexivity|].
  apply truthy_false_iff in E. now subst.
Qed.

(** ** The test controller *)

Section TesterFacts.
Import Tester.

(** Every format of the catalog has backup URLs. *)
Lemma backupCount_pos f : 0 < getBackupCount f.
Proof. destruct f; reflexivity. Qed.

Lemma backupCount_small f : getBackupCount f <= 3.
Proof. destruct f; vm_compute; discriminate. Qed.

(** No backup URL of the catalog is empty. *)
Lemma first_backup_truthy f : truthy (getCurrentUrl f 0) = true.
Proof. destruct f; reflexivity. Qed.

Lemma nextBackupIndex_mod cur n :
  0 < n -> -1 <= cur -> nextBackupIndex cur n = (cur + 1) mod n.
Proof.
  intros Hn Hc. unfold nextBackupIndex. apply Z.rem_mod_nonneg; lia.
Qed.

Lemma nextBackupIndex_range cur n :
  0 < n -> -1 <= cur -> 0 <= nextBackupIndex cur n < n.
Proof.
  intros Hn Hc. rewrite nextBackupIndex_mod by assumption.
  apply Z.mod_pos_bound. assumption.
Qed.

Lemma index_ok_lower s : index_ok s -> -1 <= backupUrlIndex s.
Proof. unfold index_ok. lia. Qed.

Lemma handleStartTest_index now s :
  backupUrlIndex (handleStartTest now s) = backupUrlIndex s
  /\ selectedFormat (handleStartTest now s) = selectedFormat s.
Proof.
  unfold handleStartTest. destruct (negb (truthy (inputUrl s))); auto.
Qed.

Lemma clickBackupUrl_index s :
  -1 <= backupUrlIndex s ->
  backupUrlIndex (clickBackupUrl s)
  = (backupUrlIndex s + 1) mod getBackupCount (selectedFormat s)
  /\ selectedFormat (clickBackupUrl s) = selectedFormat s.
Proof.
  intros H. unfold clickBackupUrl.
  pose proof (backupCount_pos (selectedFormat s)) as Hn.
  destruct (0 <? getBackupCount (selectedFormat s)) eqn:E.
  - simpl. split; [|reflexivity]. apply nextBackupIndex_mod; assumption.
  - apply Z.ltb_ge in E. lia.
Qed.

Lemma clickTryNextBackup_index s :
  -1 <= backupUrlIndex s ->
  backupUrlIndex (clickTryNextBackup s)
  = (backupUrlIndex s + 1) mod getBackupCount (selectedFormat s)
  /\ selectedFormat (clickTryNextBackup s) = selectedFormat s.
Proof.
  intros H. unfold clickTryNextBackup.
  pose proof (backupCount_pos (selectedFormat s)) as Hn.
  destruct (0 <? getBackupCount (selectedFormat s)) eqn:E.
  - simpl. split; [|reflexivity]. apply nextBackupIndex_mod; assumption.
  - apply Z.ltb_ge in E. lia.
Qed.

Lemma handleStatusChange_unfold now st s :
  handleStatusChange now st s =
  if autoFallback st s then
    handleStartTest now
      (setInputUrl (getCurrentUrl (selectedFormat s) 0)
         (setBackupUrlIndex 0
            (setResults (updateHead st) (setStatus st s))))
  else setResults (updateHead st) (setStatus st s).
Proof.
  unfold handleStatusChange, autoFallback. simpl.
  destruct (status_eqb st Error), (isTestActive s),
           (0 <? getBackupCount (selectedFormat s)),
           (backupUrlIndex s =? -1); reflexivity.
Qed.

Lemma handleStatusChange_index now st s :
  selectedFormat (handleStatusChange now st s) = selectedFormat s
  /\ backupUrlIndex (handleStatusChange now st s)
     = if autoFallback st s then 0 else backupUrlIndex s.
Proof.
  rewrite handleStatusChange_unfold.
  destruct (autoFallback st s).
  - destruct (handleStartTest_index now
      (setInputUrl (getCurrentUrl (selectedFormat s) 0)
         (setBackupUrlIndex 0
            (setResults (updateHead st) (setStatus st s))))) as [A B].
    rewrite A, B. split; reflexivity.
  - split; reflexivity.
Qed.

Lemma step_index_ok e s : index_ok s -> index_ok (step e s).
Proof.
  intros H. pose proof (index_ok_lower s H) as Hl.
  destruct e; simpl.
  - unfold clickFormat. destruct (negb (isTestActive s)); exact H.
  - unfold formatChangeFires. destruct (formatChangeTimer s); [left; reflexivity|exact H].
  - exact H.
  - unfold urlChangeFires. destruct (urlChangeTimer s) as [[u [|]]|];
      [left; reflexivity|exact H|exact H].
  - left; reflexivity.
  - destruct (clickBackupUrl_index s Hl) as [A B].
    right. unfold index_ok. rewrite A, B.
    apply Z.mod_pos_bound, backupCount_pos.
  - destruct (handleStartTest_index now s) as [A B].
    unfold index_ok. rewrite A, B. exact H.
  - exact H.
  - unfold clickTryPrimary.
    match goal with |- index_ok (handleStartTest ?n ?x) =>
      destruct (handleStartTest_index n x) as [A B];
      unfold index_ok; rewrite A, B; left; reflexivity end.
  - destruct (clickTryNextBackup_index s Hl) as [A B].
    right. unfold index_ok. rewrite A, B.
    apply Z.mod_pos_bound, backupCount_pos.
  - unfold startTimerFires. destruct (startTimers s); [exact H|].
    match goal with |- index_ok (handleStartTest ?n ?x) =>
      destruct (handleStartTest_index n x) as [A B];
      unfold index_ok; rewrite A, B; exact H end.
  - unfold resetPlayStatusFires. destruct (resetTimers s); [exact H|].
    simpl. destruct (results s) as [|r rest]; [exact H|].
    simpl. destruct (rstatus_eqb (r_status r) (Tested Loading)); exact H.
  - destruct (handleStatusChange_index now st s) as [A B].
    unfold index_ok. rewrite A, B.
    destruct (autoFallback st s); [|exact H].
    right. pose proof (backupCount_pos (selectedFormat s)). lia.
  - exact H.
  - left; reflexivity.
  - exact H.
  - exact H.
Qed.

Lemma run_index_ok evs s : index_ok s -> index_ok (run evs s).
Proof.
  revert s. induction evs as [|e evs IH]; intros s H; simpl; [exact H|].
  apply IH, step_index_ok, H.
Qed.

Lemma initial_index_ok : index_ok initial.
Proof. left; reflexivity. Qed.

Lemma iter_clickBackupUrl k s :
  -1 <= backupUrlIndex s ->
  backupUrlIndex (Nat.iter (S k) clickBackupUrl s)
  = (backupUrlIndex s + 1 + Z.of_nat k) mod getBackupCount (selectedFormat s)
  /\ selectedFormat (Nat.iter (S k) clickBackupUrl s) = selectedFormat s.
Proof.
  intros H. induction k as [|k [IHi IHf]].
  - simpl. rewrite Z.add_0_r. apply clickBackupUrl_index, H.
  - pose proof (backupCount_pos (selectedFormat s)) as Hn.
    change (Nat.iter (S (S k)) clickBackupUrl s)
      with (clickBackupUrl (Nat.iter (S k) clickBackupUrl s)).
    assert (Hl : -1 <= backupUrlIndex (Nat.iter (S k) clickBackupUrl s)).
    { rewrite IHi.
      pose proof (Z.mod_pos_bound
        (backupUrlIndex s + 1 + Z.of_nat k) _ Hn). lia. }
    destruct (clickBackupUrl_index _ Hl) as [A B].
    rewrite A, B, IHf, IHi. split; [|reflexivity].
    rewrite Z.add_mod_idemp_l by lia. f_equal. lia.
Qed.

End TesterFacts.

Section TesterClaims.
Import Tester.

(** C10.  When the input URL is the empty string, [handleStartTest] is a
    no-op on the state of the controller, in both versions: the state it
    returns is the state it was given, so no Loading record is added, the
    status signal is unchanged and no test becomes active. *)
Theorem C10_start_with_empty_url_is_noop :
  forall (now : Z) (s : State) (s1 : TesterV1.State),
    inputUrl s = "" -> TesterV1.inputUrl s1 = "" ->
    (handleStartTest now s = s
     /\ results (handleStartTest now s) = results s
     /\ status (handleStartTest now s) = status s
     /\ isTestActive (handleStartTest now s) = isTestActive s)
    /\ (TesterV1.handleStartTest s1 = s1
        /\ TesterV1.results (TesterV1.handleStartTest s1) = TesterV1.results s1
        /\ TesterV1.status (TesterV1.handleStartTest s1) = TesterV1.status s1
        /\ TesterV1.isTestActive (TesterV1.handleStartTest s1)
           = TesterV1.isTestActive s1).
Proof.
  intros now s s1 H H1.
  assert (E : handleStartTest now s = s).
  { unfold handleStartTest. rewrite H. reflexivity. }
  assert (E1 : TesterV1.handleStartTest s1 = s1).
  { unfold TesterV1.handleStartTest. rewrite H1. reflexivity. }
  rewrite E, E1. repeat split.
Qed.

Lemma C10_witness :
  let s := setInputUrl "" (handleStartTest 7 initial) in
  let s1 := TesterV1.handleUrlChange "" TesterV1.initial in
  handleStartTest 8 s = s /\ TesterV1.handleStartTest s1 = s1.
Proof.
  intros s s1.
  destruct (C10_start_with_empty_url_is_noop 8 s s1 eq_refl eq_refl)
    as [[A _] [B _]].
  split; [exact A | exact B].
Defined.

(** C5.  In every state the controller can reach, each fallback step sets
    the backup index to (current + 1) mod backupCount of the selected
    format: the "Backup URL" button, the "Try Next Backup Source" button,
    and the automatic step of [handleStatusChange] whenever it is taken.
    From index -1 the first step selects index 0, the URL that the step
    installs is the backup at the new index, and repeated steps cycle
    through the backups with period backupCount. *)
Theorem C5_backup_rotation :
  forall (evs : list Event),
    let s := run evs initial in
    let n := getBackupCount (selectedFormat s) in
    0 < n
    /\ backupUrlIndex (clickBackupUrl s) = (backupUrlIndex s + 1) mod n
    /\ backupUrlIndex (clickTryNextBackup s) = (backupUrlIndex s + 1) mod n
    /\ (forall now st, autoFallback st s = true ->
          backupUrlIndex (handleStatusChange now st s)
          = (backupUrlIndex s + 1) mod n)
    /\ (backupUrlIndex s = -1 ->
          backupUrlIndex (clickBackupUrl s) = 0
          /\ backupUrlIndex (clickTryNextBackup s) = 0)
    /\ inputUrl (urlChangeFires (clickBackupUrl s))
       = nth (Z.to_nat ((backupUrlIndex s + 1) mod n))
             (SAMPLE_BACKUPS (selectedFormat s)) ""
    /\ (forall k : nat,
          backupUrlIndex (Nat.iter (S k) clickBackupUrl s)
          = (backupUrlIndex s + 1 + Z.of_nat k) mod n)
    /\ (forall k : nat,
          backupUrlIndex (Nat.iter (S k + Z.to_nat n) clickBackupUrl s)
          = backupUrlIndex (Nat.iter (S k) clickBackupUrl s)).
Proof.
  intros evs s n.
  assert (Hok : index_ok s) by (apply run_index_ok, initial_index_ok).
  pose proof (index_ok_lower s Hok) as Hl.
  pose proof (backupCount_pos (selectedFormat s)) as Hn. fold n in Hn.
  destruct (clickBackupUrl_index s Hl) as [A _].
  destruct (clickTryNextBackup_index s Hl) as [B _].
  fold n in A, B.
  split; [exact Hn|]. split; [exact A|]. split; [exact B|].
  split.
  { intros now st Ha.
    destruct (handleStatusChange_index now st s) as [_ C].
    rewrite C, Ha. unfold autoFallback in Ha.
    apply andb_prop in Ha as [_ Ha]. apply Z.eqb_eq in Ha.
    rewrite Ha. simpl. symmetry. apply Z.mod_0_l. lia. }
  split.
  { intros E. rewrite A, B, E. simpl. rewrite Z.mod_0_l by lia. auto. }
  split.
  { unfold clickBackupUrl. fold n.
    destruct (0 <? n) eqn:E; [|apply Z.ltb_ge in E; lia].
    simpl. rewrite nextBackupIndex_mod by assumption. fold n.
    pose proof (Z.mod_pos_bound (backupUrlIndex s + 1) n Hn) as Hb.
    unfold getCurrentUrl.
    destruct ((backupUrlIndex s + 1) mod n =? -1) eqn:E1;
      [apply Z.eqb_eq in E1; lia|].
    fold (getBackupCount (selectedFormat s)). fold n.
    destruct (n <=? (backupUrlIndex s + 1) mod n) eqn:E2;
      [apply Z.leb_le in E2; lia|].
    destruct ((backupUrlIndex s + 1) mod n <? 0) eqn:E3;
      [apply Z.ltb_lt in E3; lia|].
    reflexivity. }
  split.
  { intros k. apply (iter_clickBackupUrl k s Hl). }
  intros k.
  replace (S k + Z.to_nat n)%nat with (S (k + Z.to_nat n)) by lia.
  destruct (iter_clickBackupUrl (k + Z.to_nat n) s Hl) as [C _].
  destruct (iter_clickBackupUrl k s Hl) as [D _].
  rewrite C, D. fold n.
  rewrite Nat2Z.inj_add, Z2Nat.id by lia.
  replace (backupUrlIndex s + 1 + (Z.of_nat k + n))
    with (backupUrlIndex s + 1 + Z.of_nat k + 1 * n) by lia.
  apply Z.mod_add. lia.
Qed.

(** C7.  After every format change the backup index is -1: when the
    debounce timer of a format selection fires, at the selection step of
    a sweep, and, for every event of the controller, whenever the event
    leaves another format selected. *)
Theorem C7_format_change_resets_backup_index :
  forall (f : VideoFormat) (e : Event) (s : State),
    (selectedFormat (formatChangeFires (debouncedFormatChange f s)) = f
     /\ backupUrlIndex (formatChangeFires (debouncedFormatChange f s)) = -1)
    /\ (selectedFormat (sweepSelect f s) = f
        /\ backupUrlIndex (sweepSelect f s) = -1)
    /\ (selectedFormat (step e s) = selectedFormat s
        \/ backupUrlIndex (step e s) = -1).
Proof.
  intros f e s. split; [split; reflexivity|]. split; [split; reflexivity|].
  destruct e; simpl.
  - left. unfold clickFormat. destruct (negb (isTestActive s)); reflexivity.
  - unfold formatChangeFires. destruct (formatChangeTimer s);
      [right|left]; reflexivity.
  - left; reflexivity.
  - left. unfold urlChangeFires.
    destruct (urlChangeTimer s) as [[u [|]]|]; reflexivity.
  - left; reflexivity.
  - left. unfold clickBackupUrl.
    destruct (0 <? getBackupCount (selectedFormat s)); reflexivity.
  - left. apply handleStartTest_index.
  - left; reflexivity.
  - right. unfold clickTryPrimary.
    match goal with |- backupUrlIndex (handleStartTest ?n ?x) = _ =>
      destruct (handleStartTest_index n x) as [A _]; rewrite A end.
    reflexivity.
  - left. unfold clickTryNextBackup.
    destruct (0 <? getBackupCount (selectedFormat s)); reflexivity.
  - left. unfold startTimerFires. destruct (startTimers s); [reflexivity|].
    match goal with |- selectedFormat (handleStartTest ?n ?x) = _ =>
      destruct (handleStartTest_index n x) as [_ B]; rewrite B end.
    reflexivity.
  - left. unfold resetPlayStatusFires. destruct (resetTimers s); [reflexivity|].
    simpl. destruct (results s) as [|r rest]; [reflexivity|].
    simpl. destruct (rstatus_eqb (r_status r) (Tested Loading)); reflexivity.
  - left. apply handleStatusChange_index.
  - left; reflexivity.
  - right; reflexivity.
  - left; reflexivity.
  - left; reflexivity.
Qed.

Lemma C5_witness :
  let s := run [ClickBackupUrl; UrlTimerFires; ClickStart 5] initial in
  backupUrlIndex s = 0
  /\ backupUrlIndex (clickBackupUrl s) = 1
  /\ backupUrlIndex (Nat.iter 3 clickBackupUrl s) = 0.
Proof.
  intros s.
  destruct (C5_backup_rotation [ClickBackupUrl; UrlTimerFires; ClickStart 5])
    as (_ & A & _ & _ & _ & _ & C & _).
  fold s in A, C.
  split; [reflexivity|]. split; [rewrite A; reflexivity|].
  rewrite (C 2%nat). reflexivity.
Defined.

(** *** Automatic fallback *)


Lemma handleStartTest_truthy now s :
  truthy (inputUrl s) = true ->
  handleStartTest now s =
  setResults
    (fun prev =>
       firstn 10
         (mkResult (selectedFormat s) (inputUrl s) (Tested Loading) now
          :: prev))
    (setStatus Loading (setIsTestActive true s)).
Proof.
  intros H. unfold handleStartTest. rewrite H. reflexivity.
Qed.




(** *** The result log *)

Lemma updateHead_shape st l :
  List.length (updateHead st l) = List.length l
  /\ tl (updateHead st l) = tl l
  /\ (forall r, hd_error l = Some r ->
        hd_error (updateHead st l)
        = Some (mkResult (r_format r) (r_url r) (Tested st) (r_timestamp r))).
Proof.
  destruct l as [|r rest]; simpl.
  - repeat split. intros r H. discriminate H.
  - repeat split. intros r0 H. injection H as <-. reflexivity.
Qed.

(** C2, as the controller implements it.  A test start with a non-empty
    URL puts exactly one record with status Loading, for the selected
    format and the input URL, in front of the result log, which keeps its
    ten newest records.  Every status callback writes the status it
    reports, Loading included, into the newest record of the log, whatever
    test that record belongs to and however many callbacks came before;
    the other fields of that record, the other records and the length of
    the log are unchanged.  The only other change a callback makes to the
    log is the record of an automatic fallback. *)
Theorem C2_log_start_and_status_updates :
  forall (now : Z) (st : Status) (s : State),
    (truthy (inputUrl s) = true ->
       results (handleStartTest now s)
       = firstn 10
           (mkResult (selectedFormat s) (inputUrl s) (Tested Loading) now
            :: results s))
    /\ results (handleStatusChange now st s)
       = (if autoFallback st s then
            firstn 10
              (mkResult (selectedFormat s)
                 (getCurrentUrl (selectedFormat s) 0) (Tested Loading) now
               :: updateHead st (results s))
          else updateHead st (results s))
    /\ List.length (updateHead st (results s)) = List.length (results s)
    /\ tl (updateHead st (results s)) = tl (results s)
    /\ (forall r, hd_error (results s) = Some r ->
          hd_error (updateHead st (results s))
          = Some (mkResult (r_format r) (r_url r) (Tested st)
                    (r_timestamp r))).
Proof.
  intros now st s. split.
  { intros H. rewrite handleStartTest_truthy by exact H. reflexivity. }
  split.
  { rewrite handleStatusChange_unfold.
    destruct (autoFallback st s); [|reflexivity].
    rewrite handleStartTest_truthy by (simpl; apply first_backup_truthy).
    reflexivity. }
  apply updateHead_shape.
Qed.

Lemma C2_witness :
  results (handleStartTest 9 initial)
  = [mkResult hls (SAMPLE_STREAMS hls) (Tested Loading) 9]
  /\ results (handleStatusChange 10 Success (handleStartTest 9 initial))
     = [mkResult hls (SAMPLE_STREAMS hls) (Tested Success) 9].
Proof.
  destruct (C2_log_start_and_status_updates 9 Success initial) as (A & _).
  destruct (C2_log_start_and_status_updates 10 Success
              (handleStartTest 9 initial)) as (_ & B & _).
  split; [rewrite (A eq_refl); reflexivity|].
  rewrite B. reflexivity.
Defined.

(** C2 as stated does not hold: after one test start, the callbacks
    Success and then Error (a peer connection that connects and later
    disconnects reports exactly these) change the record of that start
    twice. *)
Lemma C2_counterexample :
  ~ (forall (now : Z) (cbs : list Status) (s : State),
       truthy (inputUrl s) = true ->
       (logChanges now cbs (handleStartTest now s) <= 1)%nat).
Proof.
  intros H.
  specialize (H 0 [Success; Error] initial eq_refl).
  vm_compute in H. lia.
Qed.

End TesterClaims.

(** ** The bounded wait of a sweep step *)

Section WaitFacts.
Variable St : Type.
Variable status_of : St -> Status.
Variable onStatus : Z -> Status -> St -> St.
(** A property of the state that the callbacks keep and under which a
    reported Error ends as status Error. *)
Variable keeps : St -> Prop.
Hypothesis keeps_onStatus : forall now st s, keeps s -> keeps (onStatus now st s).
Hypothesis forced : forall now s, keeps s -> status_of (onStatus now Error s) = Error.

Lemma deliver_keeps now cbs s :
  keeps s -> keeps (deliver St onStatus now cbs s).
Proof.
  revert s. induction cbs as [|c cbs IH]; intros s H; simpl; [exact H|].
  apply IH, keeps_onStatus, H.
Qed.

Lemma afterWindows_keeps k i w t0 s :
  keeps s -> keeps (afterWindows St onStatus k i w t0 s).
Proof.
  revert i s. induction k as [|k IH]; intros i s H; simpl; [exact H|].
  apply IH, deliver_keeps, H.
Qed.

End WaitFacts.

Section SweepClaims.
Import Tester.






End SweepClaims.

(** ** The player *)

Section PlayerFacts.
Import Player.
Local Open Scope player_scope.
Local Open Scope string_scope.

Lemma releaseVariable_run env k msg p :
  k <> KWs ->
  releaseVariable env k msg p
  = Normal tt (set_slot k None p)
      (match slot k p with
       | Some _ => if destroyThrows env k then [ARelease k; AConsole msg]
                   else [ARelease k]
       | None => []
       end).
Proof.
  intros Hk. unfold releaseVariable, bind, gets.
  destruct (slot k p) as [h|] eqn:E.
  - unfold try_catch, release, bind, emit, modify, may_throw, assign,
      console_error, emit, modify.
    destruct (destroyThrows env k) eqn:T;
      destruct p, k; try congruence; simpl in *; rewrite E; reflexivity.
  - unfold ret. destruct p, k; simpl in *; subst; reflexivity.
Qed.

Lemma closeSocket_run env p :
  closeSocket env p
  = Normal tt (set_slot KWs None p)
      (match webSocketConnection p with
       | Some ws =>
         match h_ready ws with
         | OPEN | CONNECTING =>
           if destroyThrows env KWs
           then [ARelease KWs; AConsole "Error closing WebSocket connection:"]
           else [ARelease KWs]
         | _ => []
         end
       | None => []
       end).
Proof.
  unfold closeSocket, bind, gets.
  destruct (webSocketConnection p) as [h|] eqn:E.
  - unfold try_catch, release, bind, emit, modify, may_throw, assign,
      console_error, emit, modify, ret.
    destruct h as [hk hg [| | |]]; cbn [h_ready];
      try destruct (destroyThrows env KWs) eqn:T;
      destruct p; simpl in *; rewrite E; reflexivity.
  - unfold ret. destruct p; simpl in *; subst; reflexivity.
Qed.

Lemma stopTracks_run ts p :
  stopTracks ts p = Normal tt p (map ATrackStop ts).
Proof.
  induction ts as [|t ts IH].
  - reflexivity.
  - cbn [stopTracks]. unfold bind, emit. rewrite IH. reflexivity.
Qed.

Lemma forallb_trackstops (P : Action -> bool) ts :
  (forall t, P (ATrackStop t) = true) ->
  forallb P (map ATrackStop ts) = true.
Proof. intros H. induction ts; simpl; rewrite ?H; auto. Qed.

Lemma resetVideo_run env p :
  exists v' acts,
    resetVideo env p = Normal tt (set_video v' p) acts
    /\ same_element (videoRef p) v'
    /\ forallb teardownAction acts = true
    /\ forallb (fun a => negb (isRelease a)) acts = true
    /\ (noTracks (videoRef p) ->
          forallb (fun a => negb (isTrackStop a)) acts = true /\ noTracks v')
    /\ (forallb (fun a => negb (isTrackStop a)) acts = true \/ noTracks v').
Proof.
  unfold resetVideo, bind, gets.
  destruct (videoRef p) as [v|] eqn:E.
  2:{ exists None, []. unfold ret. cbn. repeat split; auto.
      destruct p; simpl in *; subst; reflexivity. }
  unfold try_catch, bind, videoCall, emit, modify, may_throw, update_video,
    setSrc, console_error, emit, modify, bind, ret, raise.
  destruct v as [src [tracks|] ov att]; cbn [v_srcObject].
  - destruct (videoThrows env VGetTracks) eqn:T1.
    + destruct p; simpl in *; subst; simpl.
      eexists _, _; (split; [reflexivity|]); simpl; repeat split; auto;
        discriminate.
    + cbn. rewrite stopTracks_run.
      destruct (videoThrows env VPause) eqn:T2;
        [|destruct (videoThrows env VLoad) eqn:T3];
      destruct p; simpl in *; subst; simpl; rewrite ?T2, ?T3;
      eexists _, _; (split; [reflexivity|]);
      simpl; rewrite ?forallb_app; simpl;
      rewrite ?forallb_trackstops by reflexivity; repeat split; auto;
      discriminate.
  - destruct (videoThrows env VPause) eqn:T2;
      [|destruct (videoThrows env VLoad) eqn:T3];
    destruct p; simpl in *; subst; simpl; rewrite ?T2, ?T3;
    eexists _, _; (split; [reflexivity|]); simpl; repeat split; auto.
Qed.

Lemma clearOverlays_run p :
  exists v' acts,
    clearOverlays p = Normal tt (set_video v' p) acts
    /\ same_element (videoRef p) v'
    /\ forallb teardownAction acts = true
    /\ forallb (fun a => negb (isRelease a)) acts = true
    /\ forallb (fun a => negb (isTrackStop a)) acts = true
    /\ (noTracks (videoRef p) -> noTracks v').
Proof.
  unfold clearOverlays, bind, gets, when, emit, update_video, modify, ret.
  destruct (videoRef p) as [[src so ov [|]]|] eqn:E;
    destruct p; simpl in *; subst; simpl;
    eexists _, _; (split; [reflexivity|]); simpl; repeat split; auto.
Qed.

Lemma same_element_trans a b c :
  same_element a b -> same_element b c -> same_element a c.
Proof.
  destruct a, b, c; simpl; try tauto. intros; congruence.
Qed.

Ltac break_match :=
  repeat match goal with
         | |- context [match ?x with _ => _ end] => destruct x
         | |- context [if ?x then _ else _] => destruct x
         end.

Lemma destroyPlayers_run env p :
  exists v' acts,
    destroyPlayers env p
    = Normal tt
        (mkPlayer (props_url p) (props_format p) v' None None None None None
           None (status p) (sessionId p) (handleId p) (wsDialect p)
           (generation p) (pendingInits p) (leaked p)) acts
    /\ same_element (videoRef p) v'
    /\ forallb teardownAction acts = true
    /\ (quiet p -> forallb (fun a => negb (isRelease a)) acts = true)
    /\ (forall k h, slot k p = Some h -> live h = true ->
          In (ARelease k) acts)
    /\ (noTracks (videoRef p) ->
          forallb (fun a => negb (isTrackStop a)) acts = true)
    /\ (forallb (fun a => negb (isTrackStop a)) acts = true \/ noTracks v').
Proof.
  unfold destroyPlayers.
  unfold bind at 1. rewrite releaseVariable_run by discriminate.
  unfold bind at 1. rewrite releaseVariable_run by discriminate.
  unfold bind at 1. rewrite releaseVariable_run by discriminate.
  unfold bind at 1. rewrite releaseVariable_run by discriminate.
  unfold bind at 1. rewrite closeSocket_run.
  unfold bind at 1.
  match goal with |- context [resetVideo env ?q] =>
    destruct (resetVideo_run env q)
      as (v1 & a1 & E1 & S1 & T1 & R1 & K1 & K1') end.
  rewrite E1. clear E1.
  unfold bind at 1.
  match goal with |- context [clearOverlays ?q] =>
    destruct (clearOverlays_run q)
      as (v2 & a2 & E2 & S2 & T2 & R2 & K2 & K2') end.
  rewrite E2. clear E2.
  rewrite releaseVariable_run by discriminate.
  destruct p as [pu pf v h1 h2 h3 h4 h5 h6 st sid hid d g n lk].
  cbn in S1, S2, K1, K1', K2' |- *.
  eexists v2, _. split; [reflexivity|].
  split; [eapply same_element_trans; eassumption|].
  split.
  { rewrite !forallb_app, T1, T2. clear. break_match; reflexivity. }
  split.
  { intros Q. pose proof (Q KHls) as Q1. pose proof (Q KDash) as Q2.
    pose proof (Q KShaka) as Q3. pose proof (Q KPeer) as Q4.
    pose proof (Q KWs) as Q5. pose proof (Q KFlv) as Q6.
    cbn in Q1, Q2, Q3, Q4, Q5, Q6. subst.
    cbn. rewrite !forallb_app, R1, R2. reflexivity. }
  split.
  { intros k h Hs Hl. clear S1 S2 T1 T2 R1 R2 K1 K1' K2 K2'.
    rewrite !in_app_iff.
    destruct k; cbn in Hs; subst; cbn.
    - left. destruct (destroyThrows env KHls); simpl; auto.
    - right; left. destruct (destroyThrows env KDash); simpl; auto.
    - right; right; left. destruct (destroyThrows env KShaka); simpl; auto.
    - right; right; right; left.
      destruct (destroyThrows env KPeer); simpl; auto.
    - right; right; right; right; left.
      destruct h as [hk hg [| | |]]; try discriminate Hl; cbn;
        destruct (destroyThrows env KWs); simpl; auto.
    - right; right; right; right; right; right; right.
      destruct (destroyThrows env KFlv); simpl; auto. }
  assert (B : forall (a b c d e f : list Action),
            forallb (fun a => negb (isTrackStop a)) a1 = true ->
            forallb (fun a => negb (isTrackStop a)) a = true ->
            forallb (fun a => negb (isTrackStop a)) b = true ->
            forallb (fun a => negb (isTrackStop a)) c = true ->
            forallb (fun a => negb (isTrackStop a)) d = true ->
            forallb (fun a => negb (isTrackStop a)) e = true ->
            forallb (fun a => negb (isTrackStop a)) f = true ->
            forallb (fun a => negb (isTrackStop a))
              (a ++ b ++ c ++ d ++ e ++ a1 ++ a2 ++ f) = true).
  { intros. rewrite !forallb_app. repeat (apply andb_true_intro; split); auto. }
  split.
  { intros N. destruct (K1 N) as [K _].
    apply B; auto; clear; break_match; reflexivity. }
  destruct K1' as [K|K]; [left|right; apply K2', K].
  apply B; auto; clear; break_match; reflexivity.
Qed.

Ltac unfold_player :=
  unfold initializeEngine, initHLS, initDASH, initFLV, initWebRTC, initSmooth,
    connectToJanusServer, connectToEchoTestServer, next_generation, start,
    create, report, setStatus, onStatusChange, addOverlay, statusText,
    console_error, setSrc, videoCall, update_video, assign, when, may_throw,
    try_catch, bind, gets, modify, emit, ret, raise in *.





Ltac unfold_handlers :=
  unfold handle, effect, cleanup, set_ready, onOpen, onMessage, onError,
    onClose, onIce, genericOnOpen, genericOnMessage, janusOnOpen,
    janusOnMessage, echoOnOpen, echoOnMessage, sendWs, parse,
    socket_generation in *.









Lemma initializePlayer_unfold env p v :
  videoRef p = Some v ->
  initializePlayer env p
  = bind (destroyPlayers env) (fun _ => initializeEngine env) p.
Proof.
  intros Hv. unfold initializePlayer. unfold bind at 1. unfold gets.
  rewrite Hv.
  destruct (bind (destroyPlayers env) (fun _ => initializeEngine env) p);
    reflexivity.
Qed.


(** C9.  For every state of the player, whether or not it was ever
    initialised, and whatever the browser makes raise, two calls of
    [destroyPlayers] in a row both return normally; after the first all
    six variables are null; the second calls no release method, performs
    only resets of the element, leaves the variables null and the status
    and the leak record as they were, and stops no track that the first
    call stopped. *)
Theorem C9_teardown_idempotent :
  forall (env env2 : Env) (p : Player),
    let o1 := destroyPlayers env p in
    let o2 := destroyPlayers env2 (final o1) in
    returns o1 = true /\ returns o2 = true
    /\ quiet (final o1)
    /\ forallb (fun a => negb (isRelease a)) (emitted o2) = true
    /\ forallb teardownAction (emitted o2) = true
    /\ quiet (final o2)
    /\ leaked (final o2) = leaked (final o1)
    /\ status (final o2) = status (final o1)
    /\ (forall t, In (ATrackStop t) (emitted o1) ->
          ~ In (ATrackStop t) (emitted o2)).
Proof.
  intros env env2 p o1 o2.
  destruct (destroyPlayers_run env p)
    as (v1 & a1 & E1 & _ & _ & _ & _ & _ & K1).
  unfold o2, o1. rewrite E1. cbn [final returns emitted].
  match goal with |- context [destroyPlayers env2 ?q] =>
    destruct (destroyPlayers_run env2 q)
      as (v2 & a2 & E2 & _ & T2 & R2 & _ & N2 & _);
    assert (Q : quiet q) by (intros k; destruct k; reflexivity) end.
  rewrite E2. cbn [final returns emitted leaked status].
  split; [reflexivity|]. split; [reflexivity|]. split; [exact Q|].
  split; [exact (R2 Q)|]. split; [exact T2|].
  split; [intros k; destruct k; reflexivity|].
  split; [reflexivity|]. split; [reflexivity|].
  intros t H1 H2.
  assert (F : forall l, forallb (fun a => negb (isTrackStop a)) l = true ->
                        ~ In (ATrackStop t) l).
  { intros l Hl Hin. rewrite forallb_forall in Hl.
    specialize (Hl _ Hin). discriminate Hl. }
  destruct K1 as [K|K].
  - exact (F a1 K H1).
  - exact (F a2 (N2 K) H2).
Qed.

Ltac unfold_all := unfold_handlers; unfold_player.

(** C3, as the player implements it.  A frame that none of the branches
    of a message handler takes (an unknown type, or a known type without
    the field the branch tests, such as a Janus [event] without [jsep])
    is dropped: the handler returns normally, the state of the component
    is unchanged and no status is reported (the Janus handler only
    shows the frame's [janus] field).  The session goes to Error, with
    the callback, when the frame cannot be read (not JSON, or [null]),
    and, in the generic dialect, on a frame of type [error], whose reason
    is shown as the diagnostic. *)
Theorem C3_unrecognised_messages_are_ignored :
  forall (env : Env) (m : Msg) (p : Player),
    (* messages no branch takes are dropped *)
    (janusTakes m = false ->
       janusOnMessage env (JsonValue m) p
       = Normal tt p
           [AStatusText ("Janus: " ++ match m_janus m with
                                      | Some j => j
                                      | None => "undefined"
                                      end)])
    /\ (genericTakes m (is_some (peerConnection p)) = false ->
          genericOnMessage env (JsonValue m) p = Normal tt p [])
    /\ (echoTakes m (is_some (peerConnection p)) = false ->
          echoOnMessage env (JsonValue m) p = Normal tt p [])
    (* frames that cannot be read fail the session *)
    /\ (forall d inc, inc = NotJson \/ inc = JsonNull ->
          status (final (onMessage env d inc p)) = Error
          /\ In (ACallback Error) (emitted (onMessage env d inc p)))
    (* so does the error message of the generic dialect *)
    /\ (is_str (m_type m) "error" = true ->
        is_str (m_type m) "answer" = false ->
        is_str (m_type m) "ice" = false ->
          status (final (genericOnMessage env (JsonValue m) p)) = Error
          /\ exists reason,
               emitted (genericOnMessage env (JsonValue m) p)
               = [AConsole "Error handling WebSocket message:";
                  ACallback Error;
                  AStatusText ("Error handling message: " ++ reason)]).
Proof.
  intros env m p. split; [|split; [|split; [|split]]].
  - unfold janusTakes. intros H. apply orb_false_iff in H as [H1 H2].
    unfold_all. cbn. rewrite H1. cbn. rewrite H2. reflexivity.
  - unfold genericTakes. intros H.
    apply orb_false_iff in H as [H H3]. apply orb_false_iff in H as [H1 H2].
    unfold_all. cbn. rewrite H1, H2, H3. reflexivity.
  - unfold echoTakes. intros H. apply orb_false_iff in H as [H1 H2].
    unfold_all. cbn. rewrite H1, H2. reflexivity.
  - intros d inc [-> | ->]; destruct d; unfold_all; cbn; auto.
  - intros H1 H2 H3. unfold_all. cbn. rewrite H1, H2, H3. cbn.
    split; [reflexivity|]. eexists. reflexivity.
Qed.

Example janus_event_without_jsep :
  status
    (run (janusSession
          ++ [(plainEnv, WsMessage (JsonValue (janusFrame "event" None)))])
       (created janusUrl webrtc))
  = Loading.
Proof. reflexivity. Qed.

(** C3 as stated does not hold: after [create] and [attach] have
    succeeded, a Janus [event] frame without [jsep] leaves the status at
    Loading. *)
Lemma C3_counterexample :
  ~ (forall (env : Env) (m : Msg) (p : Player),
       janusTakes m = false ->
       status (final (janusOnMessage env (JsonValue m) p)) = Error).
Proof.
  intros H.
  specialize (H plainEnv (janusFrame "event" None)
                (run janusSession (created janusUrl webrtc)) eq_refl).
  vm_compute in H. discriminate H.
Qed.

Lemma teardown_no_io acts :
  forallb teardownAction acts = true ->
  forallb (fun a => negb (isNetworkIO a)) acts = true
  /\ forallb (fun a => negb (isCreate a)) acts = true
  /\ forallb (fun a => negb (isCallback a)) acts = true.
Proof.
  induction acts as [|a acts IH]; cbn; [auto|].
  intros H. apply andb_prop in H as [Ha H]. destruct (IH H) as (A & B & C).
  rewrite A, B, C. destruct a; cbn in *; try discriminate; auto.
  rewrite Ha. auto.
Qed.









Lemma C9_witness :
  In (ATrackStop 1%nat) (emitted (destroyPlayers plainEnv streaming))
  /\ ~ In (ATrackStop 1%nat)
         (emitted (destroyPlayers plainEnv
                     (final (destroyPlayers plainEnv streaming)))).
Proof.
  destruct (C9_teardown_idempotent plainEnv plainEnv streaming)
    as (_ & _ & _ & _ & _ & _ & _ & _ & A).
  assert (H : In (ATrackStop 1%nat)
                (emitted (destroyPlayers plainEnv streaming))).
  { vm_compute. auto. }
  split; [exact H | exact (A 1%nat H)].
Defined.

Lemma C3_witness :
  janusOnMessage plainEnv (JsonValue (janusFrame "event" None))
    (run janusSession (created janusUrl webrtc))
  = Normal tt (run janusSession (created janusUrl webrtc))
      [AStatusText "Janus: event"].
Proof.
  destruct (C3_unrecognised_messages_are_ignored plainEnv
              (janusFrame "event" None)
              (run janusSession (created janusUrl webrtc))) as (A & _).
  exact (A eq_refl).
Defined.


End PlayerFacts.

(** * Further properties of the code *)

(** ** The wait of a sweep keeps invariants of the status handler *)

Section WaitInvariant.
Variable St : Type.
Variable status_of : St -> Status.
Variable onStatus : Z -> Status -> St -> St.
Variable P : St -> Prop.
Hypothesis P_onStatus : forall now st s, P s -> P (onStatus now st s).

Lemma deliver_inv now cbs s : P s -> P (deliver St onStatus now cbs s).
Proof.
  revert s. induction cbs as [|c cbs IH]; intros s H; simpl; [exact H|].
  apply IH, P_onStatus, H.
Qed.

Lemma waitLoop_inv n i w t0 s :
  P s -> P (fst (fst (waitLoop St status_of onStatus n i w t0 s))).
Proof.
  revert i s. induction n as [|n IH]; intros i s H; cbn [waitLoop].
  - cbn. apply P_onStatus, deliver_inv, H.
  - destruct (status_eqb _ Loading).
    + apply IH, deliver_inv, H.
    + cbn. apply deliver_inv, H.
Qed.

Lemma waitLoop_elapsed n i w t0 s :
  let e := snd (fst (waitLoop St status_of onStatus n i w t0 s)) in
  e = TIMEOUT_MS
  \/ (POLL_MS * Z.of_nat (i + 1) <= e <= POLL_MS * Z.of_nat (i + n)).
Proof.
  revert i s. induction n as [|n IH]; intros i s; cbn [waitLoop].
  - left. reflexivity.
  - destruct (status_eqb _ Loading).
    + destruct (IH (S i) (deliver St onStatus (t0 + POLL_MS * Z.of_nat i) (w i) s))
        as [E|E]; [left; exact E|right].
      cbv zeta in E. unfold POLL_MS in *. lia.
    + right. cbn [fst snd]. unfold POLL_MS. lia.
Qed.
End WaitInvariant.

(** ** The test controller *)

Section TesterExtras.
Import Tester.

Lemma updateHead_length st l : List.length (updateHead st l) = List.length l.
Proof. destruct l; reflexivity. Qed.

Lemma handleStartTest_results_bound now s :
  (List.length (results s) <= 10)%nat ->
  (List.length (results (handleStartTest now s)) <= 10)%nat.
Proof.
  intros H. unfold handleStartTest.
  destruct (negb (truthy (inputUrl s))); [exact H|].
  cbn -[firstn]. apply firstn_le_length.
Qed.

Lemma handleStatusChange_results_bound now st s :
  (List.length (results s) <= 10)%nat ->
  (List.length (results (handleStatusChange now st s)) <= 10)%nat.
Proof.
  intros H. rewrite handleStatusChange_unfold.
  destruct (autoFallback st s).
  - apply handleStartTest_results_bound. cbn. rewrite updateHead_length. exact H.
  - cbn. rewrite updateHead_length. exact H.
Qed.

Lemma resetPlayStatusFires_results_bound s :
  (List.length (results s) <= 10)%nat ->
  (List.length (results (resetPlayStatusFires s)) <= 10)%nat.
Proof.
  intros H. unfold resetPlayStatusFires. destruct (resetTimers s); [exact H|].
  cbn. destruct (results s) as [|r rest] eqn:E; [cbn; rewrite E; cbn; lia|].
  cbn. destruct (rstatus_eqb (r_status r) (Tested Loading)); cbn;
    rewrite ?E; cbn in *; lia.
Qed.

Lemma step_results_bound e s :
  (List.length (results s) <= 10)%nat ->
  (List.length (results (step e s)) <= 10)%nat.
Proof.
  intros H. destruct e; cbn [step].
  - unfold clickFormat. destruct (negb (isTestActive s)); exact H.
  - unfold formatChangeFires. destruct (formatChangeTimer s); exact H.
  - exact H.
  - unfold urlChangeFires. destruct (urlChangeTimer s) as [[u [|]]|]; exact H.
  - exact H.
  - unfold clickBackupUrl.
    destruct (0 <? getBackupCount (selectedFormat s)); exact H.
  - apply handleStartTest_results_bound, H.
  - exact H.
  - apply handleStartTest_results_bound. exact H.
  - unfold clickTryNextBackup.
    destruct (0 <? getBackupCount (selectedFormat s)); exact H.
  - unfold startTimerFires. destruct (startTimers s); [exact H|].
    apply handleStartTest_results_bound. exact H.
  - apply resetPlayStatusFires_results_bound, H.
  - apply handleStatusChange_results_bound, H.
  - exact H.
  - exact H.
  - cbn -[firstn]. apply firstn_le_length.
  - exact H.
Qed.

Lemma sweepLoop_results_bound env fs clock s :
  (List.length (results s) <= 10)%nat ->
  (List.length (results (fst (sweepLoop env fs clock s))) <= 10)%nat.
Proof.
  revert clock s. induction fs as [|f fs IH]; intros clock s H; cbn [sweepLoop].
  - exact H.
  - destruct (negb (truthy (getCurrentUrl f (-1)))).
    + apply IH. exact H.
    + unfold sweepWait.
      pose proof (waitLoop_inv State status handleStatusChange
                    (fun x => (List.length (results x) <= 10)%nat)
                    handleStatusChange_results_bound
                    (polls env) 0 (callbacks env f) clock
                    (resetPlayStatusFires (sweepBegin clock f (sweepSelect f s))))
        as W.
      destruct (waitLoop State status handleStatusChange (polls env) 0
                  (callbacks env f) clock _) as [[s' e] b].
      apply IH. apply W.
      apply resetPlayStatusFires_results_bound. cbn -[firstn]. apply firstn_le_length.
Qed.

(** X1.  The result log never holds more than ten records: after any
    sequence of events of the controller from its initial state, and
    after a sweep over all formats started from such a state. *)
Theorem X1_result_log_bounded :
  forall (evs : list Event) (env : SweepEnv) (clock : Z),
    let s := run evs initial in
    (List.length (results s) <= 10)%nat
    /\ (List.length (results (fst (handleTestAll env clock s))) <= 10)%nat.
Proof.
  intros evs env clock s.
  assert (H : (List.length (results s) <= 10)%nat).
  { unfold s. generalize initial, (Nat.le_0_l 10 : (List.length (results initial) <= 10)%nat).
    induction evs as [|e evs IH]; intros s0 H0; cbn; [exact H0|].
    apply IH, step_results_bound, H0. }
  split; [exact H|].
  unfold handleTestAll.
  pose proof (sweepLoop_results_bound env formatOptions clock (resetPlayStatus s) H) as B.
  destruct (sweepLoop env formatOptions clock (resetPlayStatus s)) as [s' c].
  exact B.
Qed.

Lemma url_of_valid_index f i :
  i = -1 \/ 0 <= i < getBackupCount f ->
  truthy (getCurrentUrl f i) = true
  /\ (0 <= i -> getCurrentUrl f i = nth (Z.to_nat i) (SAMPLE_BACKUPS f) ""
               /\ In (getCurrentUrl f i) (SAMPLE_BACKUPS f)).
Proof.
  intros [-> | H].
  - split; [destruct f; reflexivity|]. intros C. lia.
  - assert (E : i = 0 \/ i = 1 \/ i = 2).
    { pose proof (backupCount_small f). lia. }
    destruct f; cbn in H; destruct E as [-> | [-> | ->]]; try lia;
      (split; [reflexivity|]); intros _; (split; [reflexivity|]);
      cbn; auto.
Qed.

(** X2.  After any sequence of events of the controller the backup index
    is -1 or a valid index into the backups of the selected format, so
    [getCurrentUrl] gives a non-empty URL: the primary sample at -1,
    and the backup at that position otherwise. *)
Theorem X2_backup_index_valid :
  forall (evs : list Event),
    let s := run evs initial in
    let f := selectedFormat s in
    let i := backupUrlIndex s in
    (i = -1 \/ 0 <= i < getBackupCount f)
    /\ truthy (getCurrentUrl f i) = true
    /\ (0 <= i -> getCurrentUrl f i = nth (Z.to_nat i) (SAMPLE_BACKUPS f) ""
                 /\ In (getCurrentUrl f i) (SAMPLE_BACKUPS f)).
Proof.
  intros evs s f i.
  assert (H : index_ok s) by (apply run_index_ok, initial_index_ok).
  split; [exact H|]. apply url_of_valid_index. exact H.
Qed.

(** X3.  The two debounced changes.  Of two format changes, or two URL
    changes, made before the timer fires only the last takes effect, and
    the timer fires once: a second firing changes nothing.  The format
    timer selects the format and its sample URL; the URL timer sets the
    input URL.  Until the timer fires, a debounced change only stops the
    test: format, URL and backup index are as before. *)
Theorem X3_debounce_last_change_wins :
  forall (f1 f2 : VideoFormat) (u1 u2 : string) (r1 r2 : bool) (s : State),
    (formatChangeFires (debouncedFormatChange f2 (debouncedFormatChange f1 s))
     = formatChangeFires (debouncedFormatChange f2 s)
     /\ selectedFormat (formatChangeFires (debouncedFormatChange f2 s)) = f2
     /\ inputUrl (formatChangeFires (debouncedFormatChange f2 s))
        = SAMPLE_STREAMS f2
     /\ formatChangeFires (formatChangeFires (debouncedFormatChange f2 s))
        = formatChangeFires (debouncedFormatChange f2 s))
    /\ (urlChangeFires (debouncedUrlChange u2 r2 (debouncedUrlChange u1 r1 s))
        = urlChangeFires (debouncedUrlChange u2 r2 s)
        /\ inputUrl (urlChangeFires (debouncedUrlChange u2 r2 s)) = u2
        /\ urlChangeFires (urlChangeFires (debouncedUrlChange u2 r2 s))
           = urlChangeFires (debouncedUrlChange u2 r2 s))
    /\ (isTestActive (debouncedFormatChange f1 s) = false
        /\ selectedFormat (debouncedFormatChange f1 s) = selectedFormat s
        /\ inputUrl (debouncedFormatChange f1 s) = inputUrl s
        /\ backupUrlIndex (debouncedFormatChange f1 s) = backupUrlIndex s)
    /\ (isTestActive (debouncedUrlChange u1 r1 s) = false
        /\ inputUrl (debouncedUrlChange u1 r1 s) = inputUrl s
        /\ backupUrlIndex (debouncedUrlChange u1 r1 s) = backupUrlIndex s).
Proof.
  intros f1 f2 u1 u2 r1 r2 s.
  split; [|split; [|split]].
  - repeat split; try reflexivity.
    cbn. apply or_empty_id.
  - destruct r2; repeat split; reflexivity.
  - repeat split; reflexivity.
  - repeat split; reflexivity.
Qed.














Lemma X2_witness :
  In (getCurrentUrl hls 0) (SAMPLE_BACKUPS hls).
Proof.
  destruct (X2_backup_index_valid [ClickBackupUrl]) as (_ & _ & H).
  destruct (H ltac:(vm_compute; discriminate)) as (_ & B). exact B.
Defined.



End TesterExtras.

(** ** The test controller, first version *)

Section TesterV1Extras.
Import TesterV1.

Lemma countFormatV1_updateHead g st l :
  countFormatV1 g (updateHead st l) = countFormatV1 g l.
Proof.
  unfold countFormatV1. destruct l as [|r l]; [reflexivity|]. cbn.
  destruct (r_format r), g; reflexivity.
Qed.

Lemma countFormatV1_firstn g n l :
  (countFormatV1 g (firstn n l) <= countFormatV1 g l)%nat.
Proof.
  unfold countFormatV1. revert n. induction l as [|r l IH]; intros [|n]; cbn;
    try lia.
  specialize (IH n). destruct (r_format r), g; cbn; lia.
Qed.

Lemma sweepingV1_onStatus f g c (now : Z) st s :
  sweepingV1 f g c s -> sweepingV1 f g c (handleStatusChange st s).
Proof.
  intros (A & F & C). unfold sweepingV1. cbn -[countFormatV1 updateHead].
  rewrite countFormatV1_updateHead. repeat split; assumption.
Qed.

Lemma sweepLoopV1_skip npolls cbs f rest clock s :
  SAMPLE_STREAMS f = "" ->
  sweepLoop npolls cbs (f :: rest) clock s
  = sweepLoop npolls cbs rest clock
      (mkState f "" (isTestActive s) (status s) (results s)).
Proof.
  intros H. cbn [sweepLoop]. rewrite H. reflexivity.
Qed.

Lemma sweepLoopV1_run npolls cbs f rest clock s :
  truthy (SAMPLE_STREAMS f) = true ->
  sweepLoop npolls cbs (f :: rest) clock s
  = let s0 := mkState f (SAMPLE_STREAMS f) true Loading
                (firstn 10 (mkResult f (SAMPLE_STREAMS f) (Tested Loading)
                            :: results s)) in
    sweepLoop npolls cbs rest
      (clock + snd (fst (sweepWait npolls (cbs f) clock s0)) + SETTLE_MS)
      (fst (fst (sweepWait npolls (cbs f) clock s0))).
Proof.
  intros H. cbn [sweepLoop]. rewrite H, or_empty_id. cbn [negb].
  cbv zeta. cbn [selectedFormat inputUrl results].
  destruct (sweepWait npolls (cbs f) clock _) as [[s' e] b]. reflexivity.
Qed.

Lemma sweepV1_step npolls cbs f g c clock s :
  (npolls <= 20)%nat ->
  (countFormatV1 g (mkResult f (SAMPLE_STREAMS f) (Tested Loading)
                    :: results s) <= c)%nat ->
  let s0 := mkState f (SAMPLE_STREAMS f) true Loading
              (firstn 10 (mkResult f (SAMPLE_STREAMS f) (Tested Loading)
                          :: results s)) in
  let s' := fst (fst (sweepWait npolls (cbs f) clock s0)) in
  let e := snd (fst (sweepWait npolls (cbs f) clock s0)) in
  sweepingV1 f g c s' /\ 500 <= e <= 10000.
Proof.
  intros Hp Hc s0 s' e. split.
  - apply (waitLoop_inv State status (fun _ => handleStatusChange)
             (sweepingV1 f g c) (sweepingV1_onStatus f g c)).
    unfold sweepingV1, s0. cbn -[firstn countFormatV1]. repeat split.
    eapply Nat.le_trans; [apply countFormatV1_firstn|exact Hc].
  - pose proof (waitLoop_elapsed State status (fun _ => handleStatusChange)
                  npolls 0 (cbs f) clock s0) as W.
    cbv zeta in W. fold e in W. unfold e, sweepWait.
    unfold TIMEOUT_MS, POLL_MS in W. lia.
Qed.

(** X6.  The sweep of the first version, with at most twenty interval
    firings before each timeout: WebRTC, which has no sample URL, is
    skipped and gets no record; the sweep ends with the test stopped and
    MP4 selected, after 4.5 to 33 seconds on the logical clock. *)
Theorem X6_first_version_sweep :
  forall (npolls : nat) (cbs : VideoFormat -> nat -> list Status)
         (clock : Z) (s : State),
    (npolls <= 20)%nat ->
    let r := handleTestAll npolls cbs clock s in
    isTestActive (fst r) = false
    /\ selectedFormat (fst r) = mp4
    /\ (countFormatV1 webrtc (results (fst r))
        <= countFormatV1 webrtc (results s))%nat
    /\ clock + 4500 <= snd r <= clock + 33000.
Proof.
  intros npolls cbs clock s Hp r. unfold r, handleTestAll, formatOptions.
  set (c := countFormatV1 webrtc (results s)).
  rewrite sweepLoopV1_run by reflexivity. cbv zeta.
  match goal with |- context [sweepWait npolls (cbs hls) clock ?x] =>
    destruct (sweepV1_step npolls cbs hls webrtc c clock s Hp (Nat.le_refl _))
      as ((A1 & F1 & C1) & E1) end.
  set (s1 := fst (fst (sweepWait npolls (cbs hls) clock _))) in *.
  set (e1 := snd (fst (sweepWait npolls (cbs hls) clock _))) in *.
  rewrite sweepLoopV1_run by reflexivity. cbv zeta.
  destruct (sweepV1_step npolls cbs dash webrtc c (clock + e1 + SETTLE_MS) s1
              Hp C1) as ((A2 & F2 & C2) & E2).
  set (s2 := fst (fst (sweepWait npolls (cbs dash) _ _))) in *.
  set (e2 := snd (fst (sweepWait npolls (cbs dash) _ _))) in *.
  rewrite sweepLoopV1_skip by reflexivity.
  rewrite sweepLoopV1_run by reflexivity. cbv zeta.
  cbn [results selectedFormat isTestActive status].
  match goal with |- context [sweepWait npolls (cbs mp4) ?t ?x] =>
    destruct (sweepV1_step npolls cbs mp4 webrtc c t
                (mkState webrtc "" (isTestActive s2) (status s2) (results s2))
                Hp C2) as ((A3 & F3 & C3) & E3) end.
  cbn [results] in *.
  set (s3 := fst (fst (sweepWait npolls (cbs mp4) _ _))) in *.
  set (e3 := snd (fst (sweepWait npolls (cbs mp4) _ _))) in *.
  cbn [sweepLoop fst snd handleStopTest isTestActive selectedFormat results].
  unfold SETTLE_MS in *. repeat split; try assumption; lia.
Qed.

Lemma X6_witness :
  isTestActive
    (fst (handleTestAll 20 (fun _ _ => [Success]) 0 initial)) = false
  /\ 0 + 4500 <= snd (handleTestAll 20 (fun _ _ => [Success]) 0 initial).
Proof.
  destruct (X6_first_version_sweep 20 (fun _ _ => [Success]) 0 initial
              (le_n 20)) as (A & _ & _ & B & _).
  split; [exact A | exact B].
Defined.

End TesterV1Extras.

(** ** The player *)

Section PlayerExtras.
Import Player.
Local Open Scope player_scope.

Ltac x_unfold :=
  unfold handle, effect, cleanup, initializeEngine, onOpen, onMessage,
    onError, onClose, onIce, initHLS, initDASH, initFLV, initWebRTC,
    initSmooth, connectToJanusServer, connectToEchoTestServer,
    genericOnOpen, genericOnMessage, janusOnOpen, janusOnMessage, echoOnOpen,
    echoOnMessage, next_generation, start, create, report, setStatus,
    onStatusChange, addOverlay, statusText, console_error, setSrc, videoCall,
    update_video, assign, set_ready, sendWs, parse, when, may_throw,
    try_catch, bind, gets, modify, emit, ret, raise in *.

Ltac x_match :=
  match goal with
  | |- context [match ?x with _ => _ end] =>
    lazymatch x with
    | context [match _ with _ => _ end] => fail
    | _ => destruct x eqn:?
    end
  | |- context [if ?x then _ else _] =>
    lazymatch x with
    | context [match _ with _ => _ end] => fail
    | _ => destruct x eqn:?
    end
  end.

Ltac x_run := x_unfold; cbn; repeat (x_match; cbn).

Lemma lastCallback_app l1 l2 d :
  lastCallback (l1 ++ l2) d = lastCallback l2 (lastCallback l1 d).
Proof.
  revert d. induction l1 as [|a l1 IH]; intros d; [reflexivity|].
  destruct a; cbn; apply IH.
Qed.

Lemma lastCallback_teardown acts d :
  forallb teardownAction acts = true -> lastCallback acts d = d.
Proof.
  induction acts as [|a acts IH]; cbn; [reflexivity|].
  intros H. apply andb_prop in H as [Ha H].
  destruct a; cbn in Ha; try discriminate; apply IH, H.
Qed.


Lemma mirrors_ret {A} (a : A) : mirrors (ret a).
Proof. intros p; reflexivity. Qed.

Lemma mirrors_raise {A} msg : mirrors (@raise A msg).
Proof. intros p; reflexivity. Qed.

Lemma mirrors_gets {A} (f : Player -> A) : mirrors (gets f).
Proof. intros p; reflexivity. Qed.

Lemma mirrors_modify f :
  (forall p, status (f p) = status p) -> mirrors (modify f).
Proof. intros H p; cbn; apply H. Qed.

Lemma mirrors_bind {A B} (c : M A) (k : A -> M B) :
  mirrors c -> (forall a, mirrors (k a)) -> mirrors (bind c k).
Proof.
  intros Hc Hk p. unfold bind. specialize (Hc p).
  destruct (c p) as [a p' o1|e p' o1]; cbn [final emitted] in *; [|exact Hc].
  specialize (Hk a p').
  destruct (k a p'); cbn [final emitted] in *;
    rewrite lastCallback_app, <- Hc; exact Hk.
Qed.

Lemma mirrors_try (c : M unit) h :
  mirrors c -> (forall e, mirrors (h e)) -> mirrors (try_catch c h).
Proof.
  intros Hc Hk p. unfold try_catch. specialize (Hc p).
  destruct (c p) as [a p' o1|e p' o1]; cbn [final emitted] in *; [exact Hc|].
  specialize (Hk e p').
  destruct (h e p'); cbn [final emitted] in *;
    rewrite lastCallback_app, <- Hc; exact Hk.
Qed.

Lemma mirrors_destroyPlayers env : mirrors (destroyPlayers env).
Proof.
  intros p.
  destruct (destroyPlayers_run env p) as (v' & acts & E & _ & T & _).
  rewrite E. cbn [final emitted].
  rewrite (lastCallback_teardown acts _ T). reflexivity.
Qed.

Lemma mirrors_initializeEngine env : mirrors (initializeEngine env).
Proof.
  intros p. destruct p as [pu pf v h1 h2 h3 h4 h5 h6 st sid hid d g n lk].
  destruct pf; x_run; reflexivity.
Qed.

Lemma mirrors_update_video f : mirrors (update_video f).
Proof.
  apply mirrors_modify. intros p. destruct (videoRef p); reflexivity.
Qed.

Lemma mirrors_videoCall env op : mirrors (videoCall env op).
Proof. intros p. unfold videoCall, may_throw, bind, emit, ret, raise.
  destruct (videoThrows env op); reflexivity. Qed.

Lemma mirrors_handle env e : mirrors (handle env e).
Proof.
  destruct e; cbn [handle].
  - apply mirrors_bind; [apply mirrors_gets|]. intros [v|]; [apply mirrors_ret|].
    apply mirrors_bind; [apply mirrors_modify; reflexivity|]. intros _.
    unfold effect. apply mirrors_bind; [apply mirrors_gets|]. intros u.
    destruct (truthy u); [|apply mirrors_ret].
    apply mirrors_bind; [apply mirrors_destroyPlayers|]. intros _.
    apply mirrors_modify; reflexivity.
  - apply mirrors_bind; [apply mirrors_modify; reflexivity|]. intros _.
    apply mirrors_bind; [apply mirrors_gets|]. intros [v|]; [|apply mirrors_ret].
    unfold effect. apply mirrors_bind; [apply mirrors_gets|]. intros u'.
    destruct (truthy u'); [|apply mirrors_ret].
    apply mirrors_bind; [apply mirrors_destroyPlayers|]. intros _.
    apply mirrors_modify; reflexivity.
  - apply mirrors_bind; [apply mirrors_gets|]. intros [|n]; [apply mirrors_ret|].
    apply mirrors_bind; [apply mirrors_modify; reflexivity|]. intros _.
    unfold initializePlayer.
    apply mirrors_bind; [apply mirrors_gets|]. intros [v|]; [|apply mirrors_ret].
    apply mirrors_bind; [apply mirrors_destroyPlayers|]. intros _.
    apply mirrors_initializeEngine.
  - apply mirrors_bind; [|intros _; apply mirrors_update_video].
    unfold cleanup.
    apply mirrors_bind; [apply mirrors_destroyPlayers|]. intros _.
    apply mirrors_bind; [apply mirrors_gets|]. intros [v|]; [|apply mirrors_ret].
    apply mirrors_try.
    + repeat (apply mirrors_bind;
              [first [apply mirrors_videoCall | apply mirrors_update_video]|];
              intros _).
      apply mirrors_videoCall.
    + intros _ p; reflexivity.
  - intros p. destruct p. x_run; reflexivity.
  - intros p. destruct p. x_run; reflexivity.
  - intros p. destruct p. x_run; reflexivity.
  - intros p. destruct p. x_run; reflexivity.
  - intros p. destruct p. x_run; reflexivity.
  - intros p. destruct p. x_run; reflexivity.
  - intros p. destruct p. x_run; reflexivity.
  - intros p. destruct p. x_run; reflexivity.
  - intros p. destruct p. x_run; reflexivity.
  - intros p. destruct p. x_run; reflexivity.
Qed.

(** X7.  The [status] signal of the player and the status callback never
    disagree: after any sequence of events, from any state, the signal
    holds the status last passed to [props.onStatusChange] during the
    run, or its old value when nothing was reported. *)
Theorem X7_status_mirrors_callbacks (evs : list (Env * Event)) (p : Player) :
  status (run evs p) = lastCallback (history evs p) (status p).
Proof.
  revert p. induction evs as [|[env e] evs IH]; intros p; [reflexivity|].
  cbn [run fold_left history fst snd].
  rewrite lastCallback_app.
  change (fold_left _ evs ?q) with (run evs q).
  rewrite IH. unfold step. rewrite (mirrors_handle env e p). reflexivity.
Qed.


(** *** Initialisation from the torn-down state *)

Lemma initializePlayer_run env p v :
  videoRef p = Some v ->
  exists v' acts,
    v_attached v' = v_attached v
    /\ forallb teardownAction acts = true
    /\ initializePlayer env p
       = bind (fun _ => Normal tt
                 (mkPlayer (props_url p) (props_format p) (Some v') None None
                    None None None None (status p) (sessionId p) (handleId p)
                    (wsDialect p) (generation p) (pendingInits p) (leaked p))
                 acts)
              (fun _ => initializeEngine env) p.
Proof.
  intros Hv.
  destruct (destroyPlayers_run env p) as (v' & acts & E & Se & T & _).
  rewrite Hv in Se. destruct v' as [v'|]; [|contradiction Se].
  exists v', acts. split; [symmetry; exact Se|]. split; [exact T|].
  rewrite (initializePlayer_unfold env p v Hv). unfold bind. rewrite E.
  reflexivity.
Qed.

Lemma unmount_run env p v :
  videoRef p = Some v ->
  exists v' acts,
    handle env Unmount p
    = Normal tt
        (mkPlayer (props_url p) (props_format p) (Some v') None None None
           None None None (status p) (sessionId p) (handleId p)
           (wsDialect p) (generation p) (pendingInits p) (leaked p)) acts
    /\ v_attached v' = false
    /\ forallb (fun a => negb (isCreate a || isNetworkIO a || isCallback a))
         acts = true.
Proof.
  intros Hv.
  destruct (destroyPlayers_run env p) as (v' & acts & E & Se & T & _).
  rewrite Hv in Se. destruct v' as [v'|]; [|contradiction Se].
  destruct (teardown_no_io acts T) as (N1 & N2 & N3).
  assert (N : forall l,
    forallb (fun a => negb (isCreate a || isNetworkIO a || isCallback a)) l
      = true ->
    forallb (fun a => negb (isCreate a || isNetworkIO a || isCallback a))
      (acts ++ l) = true).
  { intros l Hl. rewrite forallb_app, Hl, andb_true_r. clear - N1 N2 N3.
    induction acts as [|a acts IH]; [reflexivity|]. cbn in *.
    apply andb_prop in N1 as [A1 N1]. apply andb_prop in N2 as [A2 N2].
    apply andb_prop in N3 as [A3 N3]. rewrite (IH N1 N2 N3), andb_true_r.
    destruct (isCreate a), (isNetworkIO a), (isCallback a);
      cbn in *; congruence. }
  cbn [handle]. unfold cleanup, bind. rewrite E. cbn.
  unfold try_catch, videoCall, update_video, console_error, may_throw, bind,
    emit, modify, ret, raise. cbn.
  destruct (videoThrows env VPause); cbn;
    [|destruct (videoThrows env VRemoveSrc); cbn;
      [|destruct (videoThrows env VLoad); cbn]];
    eexists _, _; (split; [reflexivity|]); (split; [reflexivity|]);
    rewrite ?app_nil_r, <- ?app_assoc; apply N; reflexivity.
Qed.

Lemma timer_run env p v n :
  videoRef p = Some v ->
  pendingInits p = S n ->
  exists v' acts,
    v_attached v' = v_attached v
    /\ forallb teardownAction acts = true
    /\ final (handle env TimerFires p)
       = final (initializeEngine env (torn_down p v' n))
    /\ emitted (handle env TimerFires p)
       = (acts ++ emitted (initializeEngine env (torn_down p v' n)))%list.
Proof.
  intros Hv Hn.
  destruct (destroyPlayers_run env (set_pending n p))
    as (v' & acts & E & Se & T & _).
  cbn [set_pending videoRef] in Se. rewrite Hv in Se.
  destruct v' as [v'|]; [|contradiction Se].
  exists v', acts. split; [symmetry; exact Se|]. split; [exact T|].
  assert (E0 : handle env TimerFires p
               = initializePlayer env (set_pending n p)).
  { cbn [handle]. unfold bind, gets, modify. rewrite Hn.
    destruct (initializePlayer env (set_pending n p)); reflexivity. }
  rewrite E0, (initializePlayer_unfold env (set_pending n p) v Hv).
  unfold bind. rewrite E. unfold torn_down.
  cbn [set_pending props_url props_format status sessionId handleId
       wsDialect generation pendingInits leaked].
  match goal with |- context [initializeEngine env ?q] =>
    destruct (initializeEngine env q) end; cbn; split; reflexivity.
Qed.

Lemma initializeEngine_basics env p :
  generation (final (initializeEngine env p)) = S (generation p)
  /\ pendingInits (final (initializeEngine env p)) = pendingInits p
  /\ exists rest,
       emitted (initializeEngine env p)
       = ASetSrc "" :: ACallback Loading :: rest.
Proof.
  destruct p as [pu pf v h1 h2 h3 h4 h5 h6 st sid hid d g n lk].
  destruct pf; x_run;
    (split; [reflexivity|split; [reflexivity|eexists; reflexivity]]).
Qed.

(** X8.  Unmounting does not cancel the 50 ms timer of the effect.  The
    cleanup releases everything, reports nothing and leaves the timer
    pending; when it fires, [initializePlayer] runs on the removed
    element: it reports Loading, and for MP4 assigns the URL to the
    element's source, for DASH creates a player that nothing will
    release. *)
Theorem X8_unmount_keeps_pending_timer :
  forall (env env2 : Env) (p : Player) (v : Video) (n : nat),
    videoRef p = Some v ->
    pendingInits p = S n ->
    let o1 := handle env Unmount p in
    let o2 := handle env2 TimerFires (final o1) in
    returns o1 = true
    /\ quiet (final o1)
    /\ pendingInits (final o1) = S n
    /\ forallb (fun a => negb (isCreate a || isNetworkIO a || isCallback a))
         (emitted o1) = true
    /\ pendingInits (final o2) = n
    /\ generation (final o2) = S (generation p)
    /\ In (ACallback Loading) (emitted o2)
    /\ (props_format p = mp4 -> In (ASetSrc (props_url p)) (emitted o2))
    /\ (props_format p = dash -> ctorThrows env2 KDash = false ->
        exists h, dashInstance (final o2) = Some h /\ live h = true).
Proof.
  intros env env2 p v n Hv Hn o1 o2.
  destruct (unmount_run env p v Hv) as (v1 & a1 & E1 & At & N1).
  unfold o2, o1. rewrite E1. cbn [final returns emitted].
  split; [reflexivity|]. split; [intros k; destruct k; reflexivity|].
  split; [exact Hn|]. split; [exact N1|].
  match goal with |- context [handle env2 TimerFires ?q] =>
    destruct (timer_run env2 q v1 n eq_refl Hn)
      as (v2 & a2 & _ & _ & F2 & A2); rewrite F2, A2; clear F2 A2 end.
  match goal with |- context [initializeEngine env2 ?q] =>
    destruct (initializeEngine_basics env2 q) as (G & P & rest & A) end.
  split; [exact P|]. split; [exact G|].
  split; [rewrite A; apply in_or_app; right; cbn; tauto|].
  clear G P rest A.
  destruct p as [pu pf vr h1 h2 h3 h4 h5 h6 st sid hid d g m lk].
  cbn in Hv, Hn |- *. unfold torn_down. cbn. split.
  - intros ->. apply in_or_app; right. x_run; cbn; tauto.
  - intros -> Hc. x_unfold. cbn. rewrite Hc. cbn.
    repeat (x_match; cbn); eexists; split; reflexivity.
Qed.

(** *** Signaling *)

(** X10.  No handler of the signaling socket ([onopen], [onmessage],
    [onerror], [onclose], in any of the three dialects) reports
    Success. *)
Theorem X10_signaling_never_reports_success :
  forall (env : Env) (d : Dialect) (inc : Incoming) (p : Player),
    forallb (fun a => negb (reportsSuccess a)) (emitted (onOpen env d p)) = true
    /\ forallb (fun a => negb (reportsSuccess a))
         (emitted (onMessage env d inc p)) = true
    /\ forallb (fun a => negb (reportsSuccess a)) (emitted (onError d p)) = true
    /\ forallb (fun a => negb (reportsSuccess a)) (emitted (onClose d p)) = true.
Proof.
  intros env d inc p.
  destruct p as [pu pf v h1 h2 h3 h4 h5 h6 st sid hid dd g n lk].
  split; [|split; [|split]].
  - destruct d; x_run; reflexivity.
  - destruct d; x_run; reflexivity.
  - destruct d; x_run; reflexivity.
  - destruct d; x_run; reflexivity.
Qed.

Lemma keepsIdle_bind {A B} (c : M A) (k : A -> M B) :
  keepsIdle c -> (forall a, keepsIdle (k a)) -> keepsIdle (bind c k).
Proof.
  intros Hc Hk p Hp. unfold bind. specialize (Hc p Hp).
  destruct (c p) as [a p' o1|e p' o1]; cbn [final] in *; [|exact Hc].
  specialize (Hk a p' Hc). destruct (k a p'); exact Hk.
Qed.

Lemma keepsIdle_ret {A} (a : A) : keepsIdle (ret a).
Proof. intros p H; exact H. Qed.

Lemma keepsIdle_gets {A} (f : Player -> A) : keepsIdle (gets f).
Proof. intros p H; exact H. Qed.

Lemma idle_after_teardown env (k : M unit) :
  (forall p, peerConnection p = None -> janusIdle (final (k p))) ->
  keepsIdle (bind (destroyPlayers env) (fun _ => k)).
Proof.
  intros H p _. unfold bind.
  destruct (destroyPlayers_run env p) as (v' & acts & E & _).
  rewrite E.
  match goal with |- context [k ?q] =>
    specialize (H q eq_refl); destruct (k q); exact H end.
Qed.

Lemma initializeEngine_idle env p :
  peerConnection p = None -> janusIdle (final (initializeEngine env p)).
Proof.
  destruct p as [pu pf v h1 h2 h3 h4 h5 h6 st sid hid d g n lk].
  cbn. intros ->. unfold janusIdle.
  destruct pf; x_run;
    first [reflexivity | intros; discriminate | intros _; reflexivity].
Qed.

Lemma handle_idle env e : keepsIdle (handle env e).
Proof.
  destruct e; cbn [handle].
  - apply keepsIdle_bind; [apply keepsIdle_gets|].
    intros [v|]; [apply keepsIdle_ret|].
    apply keepsIdle_bind; [intros p H; exact H|]. intros _.
    unfold effect. apply keepsIdle_bind; [apply keepsIdle_gets|]. intros u.
    destruct (truthy u); [|apply keepsIdle_ret].
    apply idle_after_teardown. intros p Hp _. exact Hp.
  - apply keepsIdle_bind; [intros p H; exact H|]. intros _.
    apply keepsIdle_bind; [apply keepsIdle_gets|].
    intros [v|]; [|apply keepsIdle_ret].
    unfold effect. apply keepsIdle_bind; [apply keepsIdle_gets|]. intros u'.
    destruct (truthy u'); [|apply keepsIdle_ret].
    apply idle_after_teardown. intros p Hp _. exact Hp.
  - apply keepsIdle_bind; [apply keepsIdle_gets|].
    intros [|n]; [apply keepsIdle_ret|].
    apply keepsIdle_bind; [intros p H; exact H|]. intros _.
    unfold initializePlayer.
    apply keepsIdle_bind; [apply keepsIdle_gets|].
    intros [v|]; [|apply keepsIdle_ret].
    apply idle_after_teardown. apply initializeEngine_idle.
  - apply keepsIdle_bind.
    + unfold cleanup. apply idle_after_teardown. intros p Hp _.
      destruct p. cbn in Hp. subst. x_run; reflexivity.
    + intros _ p H. unfold update_video, modify. cbn.
      destruct (videoRef p); exact H.
  - intros p. destruct p. unfold janusIdle. cbn. intros H. x_run; exact H.
  - intros p. destruct p. unfold janusIdle. cbn. intros H. x_run;
      first [exact H | intros; discriminate].
  - intros p. destruct p. unfold janusIdle. cbn. intros H. x_run;
      first [exact H | intros; discriminate].
  - intros p. destruct p. unfold janusIdle. cbn. intros H. x_run;
      first [exact H | intros; discriminate].
  - intros p. destruct p. unfold janusIdle. cbn. intros H. x_run;
      first [exact H | intros; discriminate].
  - intros p. destruct p. unfold janusIdle. cbn. intros H. x_run; exact H.
  - intros p. destruct p. unfold janusIdle. cbn. intros H. x_run; exact H.
  - intros p. destruct p. unfold janusIdle. cbn. intros H. x_run;
      first [exact H | intros; discriminate].
  - intros p. destruct p. unfold janusIdle. cbn. intros H. x_run; exact H.
  - intros p. destruct p. unfold janusIdle. cbn. intros H. x_run; exact H.
Qed.

Lemma run_idle evs p : janusIdle p -> janusIdle (run evs p).
Proof.
  revert p. induction evs as [|[env e] evs IH]; intros p H; [exact H|].
  cbn [run fold_left fst snd].
  change (fold_left _ evs ?q) with (run evs q).
  apply IH. unfold step. apply handle_idle, H.
Qed.

(** X9.  The Janus handlers never negotiate.  [onmessage] of the Janus
    socket never creates a peer connection, never sets [handleId] and
    never sends an offer: every [success] frame with a [data.id] takes
    the first branch, which stores the id as the session and sends
    another [attach], also when the frame answers the [attach].  In any
    run of the component, while the Janus handlers are installed there
    is no peer connection. *)
Theorem X9_janus_never_negotiates :
  (forall (env : Env) (inc : Incoming) (p : Player),
     let o := janusOnMessage env inc p in
     peerConnection (final o) = peerConnection p
     /\ handleId (final o) = handleId p
     /\ forallb (fun a => negb (isCreate a || isJanusOffer a)) (emitted o)
        = true)
  /\ (forall (env : Env) (m : Msg) (i : string) (p : Player) (ws : Handle),
        m_janus m = Some "success" -> m_data_id m = Some i ->
        webSocketConnection p = Some ws ->
        janusOnMessage env (JsonValue m) p
        = Normal tt (set_janus (Some i) (handleId p) p)
            [AStatusText "Janus: success"; ASend (OJanusAttach i)])
  /\ (forall (u : string) (f : VideoFormat) (evs : list (Env * Event)),
        wsDialect (run evs (created u f)) = Janus ->
        peerConnection (run evs (created u f)) = None).
Proof.
  split; [|split].
  - intros env inc p o. unfold o.
    destruct p as [pu pf v h1 h2 h3 h4 h5 h6 st sid hid dd g n lk].
    x_run; repeat split; reflexivity.
  - intros env m i p ws Hj Hi Hw.
    destruct p as [pu pf v h1 h2 h3 h4 h5 h6 st sid hid dd g n lk].
    cbn in Hw. subst. x_unfold. cbn. rewrite Hj, Hi. cbn. reflexivity.
  - intros u f evs. apply run_idle. intros H; reflexivity.
Qed.

(** *** Changes of the props *)

Lemma propsChange_run env u f p v :
  videoRef p = Some v ->
  truthy u = true ->
  exists v' acts,
    handle env (PropsChange u f) p
    = Normal tt
        (mkPlayer u f (Some v') None None None None None None (status p)
           (sessionId p) (handleId p) (wsDialect p) (generation p)
           (S (pendingInits p)) (leaked p)) acts
    /\ v_attached v' = v_attached v
    /\ forallb teardownAction acts = true
    /\ (forall k h, slot k p = Some h -> live h = true ->
          In (ARelease k) acts).
Proof.
  intros Hv Hu.
  destruct (destroyPlayers_run env (set_props u f p))
    as (v' & acts & E & Se & T & _ & R & _).
  cbn [set_props videoRef] in Se. rewrite Hv in Se.
  destruct v' as [v'|]; [|contradiction Se].
  exists v', acts.
  split; [|split; [symmetry; exact Se|split; [exact T|]]].
  - cbn [handle]. unfold effect, bind, gets, modify. cbv beta.
    cbn [set_props videoRef props_url]. rewrite Hv. cbv beta iota.
    cbn [set_props videoRef props_url]. rewrite Hu, E. cbn.
    rewrite ?app_nil_r. reflexivity.
  - intros k h Hs Hl. apply (R k h); [|exact Hl].
    destruct k; exact Hs.
Qed.

(** X14.  A change of the props with an empty URL changes nothing but
    the props: the engine in use keeps running.  With a non-empty URL
    the effect tears down at once, releasing every live handle, and
    arms one timer: no engine is created, nothing is put on the network
    and no status is reported until the timer fires. *)
Theorem X14_prop_change_defers_initialisation :
  forall (env : Env) (u : string) (f : VideoFormat) (p : Player) (v : Video),
    videoRef p = Some v ->
    let o := handle env (PropsChange u f) p in
    (truthy u = false -> o = Normal tt (set_props u f p) [])
    /\ (truthy u = true ->
        returns o = true
        /\ quiet (final o)
        /\ pendingInits (final o) = S (pendingInits p)
        /\ generation (final o) = generation p
        /\ status (final o) = status p
        /\ (forall k h, slot k p = Some h -> live h = true ->
              In (ARelease k) (emitted o))
        /\ forallb (fun a => negb (isCreate a || isNetworkIO a || isCallback a))
             (emitted o) = true).
Proof.
  intros env u f p v Hv o. split.
  - intros Hu. unfold o. cbn [handle]. unfold effect, bind, gets, modify.
    cbv beta. cbn [set_props videoRef props_url]. rewrite Hv. cbv beta iota.
    cbn [set_props videoRef props_url]. rewrite Hu. reflexivity.
  - intros Hu.
    destruct (propsChange_run env u f p v Hv Hu) as (v' & acts & E & _ & T & R).
    unfold o. rewrite E. cbn [final returns emitted].
    split; [reflexivity|]. split; [intros k; destruct k; reflexivity|].
    split; [reflexivity|]. split; [reflexivity|]. split; [reflexivity|].
    split; [exact R|].
    destruct (teardown_no_io acts T) as (N1 & N2 & N3). clear - N1 N2 N3.
    induction acts as [|a acts IH]; [reflexivity|]. cbn in *.
    apply andb_prop in N1 as [A1 N1]. apply andb_prop in N2 as [A2 N2].
    apply andb_prop in N3 as [A3 N3]. rewrite (IH N1 N2 N3), andb_true_r.
    destruct (isCreate a), (isNetworkIO a), (isCallback a);
      cbn in *; congruence.
Qed.

(** X11.  The close of a socket that a teardown closed fails the next
    session.  When the URL changes to an MP4 source while a socket is
    open, the effect closes the socket; after the new initialisation
    has assigned the source and reported Loading, the [onclose] handler
    of the old socket, still installed, sets the status to Error and
    reports it, and changes nothing else. *)
Theorem X11_late_close_fails_next_session :
  forall (env1 env2 env3 : Env) (p : Player) (v : Video) (ws : Handle)
         (u : string) (d : Dialect),
    videoRef p = Some v ->
    webSocketConnection p = Some ws ->
    live ws = true ->
    truthy u = true ->
    let o1 := handle env1 (PropsChange u mp4) p in
    let o2 := handle env2 TimerFires (final o1) in
    let o3 := handle env3 (StaleWsClosed d) (final o2) in
    In (ARelease KWs) (emitted o1)
    /\ status (final o2) = Loading
    /\ In (ASetSrc u) (emitted o2)
    /\ final o3 = set_status Error (final o2)
    /\ In (ACallback Error) (emitted o3).
Proof.
  intros env1 env2 env3 p v ws u d Hv Hw Hl Hu o1 o2 o3.
  destruct (propsChange_run env1 u mp4 p v Hv Hu) as (v1 & a1 & E1 & _ & _ & R).
  unfold o3, o2, o1. rewrite E1. cbn [final emitted].
  split; [apply (R KWs ws); assumption|].
  match goal with |- context [handle env2 TimerFires ?q] =>
    destruct (timer_run env2 q v1 (pendingInits p) eq_refl eq_refl)
      as (v2 & a2 & _ & _ & F2 & A2); rewrite F2, A2; clear F2 A2 end.
  unfold torn_down.
  cbn [props_url props_format status sessionId handleId wsDialect generation
       pendingInits leaked].
  assert (E : exists q,
    initializeEngine env2
      (mkPlayer u mp4 (Some v2) None None None None None None (status p)
         (sessionId p) (handleId p) (wsDialect p) (generation p)
         (pendingInits p) (leaked p))
    = Normal tt q [ASetSrc ""; ACallback Loading; ASetSrc u]
    /\ status q = Loading).
  { x_unfold. cbn. eexists; split; reflexivity. }
  destruct E as (q & E & Sq). rewrite E. cbn [final emitted].
  split; [exact Sq|]. split; [apply in_or_app; right; cbn; tauto|].
  unfold onClose, report, setStatus, onStatusChange, statusText, bind, gets,
    modify, emit, ret. cbv beta. cbn [handle]. 
  unfold onClose, report, setStatus, onStatusChange, statusText, bind, gets,
    modify, emit, ret. cbv beta. rewrite Sq. cbn.
  destruct d; cbn; split; try reflexivity; tauto.
Qed.

Lemma callbacks_app l1 l2 : callbacks (l1 ++ l2) = (callbacks l1 ++ callbacks l2)%list.
Proof. apply flat_map_app. Qed.

Lemma callbacks_teardown acts :
  forallb teardownAction acts = true -> callbacks acts = [].
Proof.
  induction acts as [|a acts IH]; cbn; [reflexivity|].
  intros H. apply andb_prop in H as [Ha H].
  destruct a; cbn in Ha; try discriminate; apply IH, H.
Qed.

Lemma initializeEngine_reports env p :
  reportsOf (props_format p) (callbacks (emitted (initializeEngine env p)))
  = true.
Proof.
  destruct p as [pu pf v h1 h2 h3 h4 h5 h6 st sid hid d g n lk].
  destruct pf; x_run; reflexivity.
Qed.

(** X13.  What one run of [initializePlayer] reports.  Without an
    element it does nothing.  With one it reports Loading first and then
    at most one more status, Error or Success; Success is reported
    during the run only for FLV.  The run is counted as one
    generation. *)
Theorem X13_initialisation_reports :
  forall (env : Env) (p : Player),
    let o := initializePlayer env p in
    (videoRef p = None -> o = Normal tt p [])
    /\ (forall v, videoRef p = Some v ->
        (callbacks (emitted o) = [Loading]
         \/ callbacks (emitted o) = [Loading; Error]
         \/ callbacks (emitted o) = [Loading; Success])
        /\ (In Success (callbacks (emitted o)) -> props_format p = flv)
        /\ generation (final o) = S (generation p)).
Proof.
  intros env p o. split.
  - intros Hv. unfold o, initializePlayer, bind, gets. rewrite Hv. reflexivity.
  - intros v Hv.
    destruct (initializePlayer_run env p v Hv) as (v' & acts & _ & T & E).
    unfold o. rewrite E. unfold bind.
    match goal with |- context [initializeEngine env ?q] =>
      pose proof (initializeEngine_reports env q) as R;
      destruct (initializeEngine_basics env q) as (G & _);
      destruct (initializeEngine env q) as [a q' out|e q' out] end;
      cbn [final emitted props_format generation] in *;
      rewrite callbacks_app, (callbacks_teardown acts T); cbn [app];
      (split; [|split; [|exact G]]);
      destruct (callbacks out) as [|[] [|[] [|]]]; cbn in R;
      try discriminate R; auto;
      try (intros [H|[H|[]]]; discriminate H);
      try (intros [H|[]]; discriminate H);
      try (intros _; destruct (props_format p); try discriminate R; reflexivity).
Qed.

(** *** Strings of URLs *)

Lemma prefix_spec sub s :
  String.prefix sub s = true <-> exists t, s = sub ++ t.
Proof.
  revert s. induction sub as [|a sub IH]; intros s.
  - destruct s; cbn; split; eauto.
  - destruct s as [|b s]; cbn.
    + split; [discriminate|]. intros [t H]. discriminate H.
    + destruct (ascii_dec a b) as [->|N].
      * rewrite IH. split; intros [t H]; exists t.
        -- now rewrite H.
        -- now injection H.
      * split; [discriminate|]. intros [t H]. injection H as H1 H2.
        now contradiction N.
Qed.

Lemma includes_spec s sub :
  includes s sub = true <-> exists a b, s = a ++ sub ++ b.
Proof.
  induction s as [|c s IH].
  - cbn [includes]. destruct (String.prefix sub "") eqn:P.
    + split; [intros _|reflexivity].
      apply prefix_spec in P as [t P]. exists "", t. exact P.
    + split; [discriminate|]. intros (a & b & H).
      destruct a; [|discriminate H]. cbn in H.
      assert (String.prefix sub "" = true) by (apply prefix_spec; eauto).
      congruence.
  - cbn [includes]. destruct (String.prefix sub (String c s)) eqn:P.
    + split; [intros _|reflexivity].
      apply prefix_spec in P as [t P]. exists "", t. exact P.
    + rewrite IH. split.
      * intros (a & b & H). exists (String c a), b. cbn. now rewrite H.
      * intros (a & b & H). destruct a as [|c' a].
        -- cbn in H.
           assert (String.prefix sub (String c s) = true)
             by (apply prefix_spec; eauto).
           congruence.
        -- cbn in H. injection H as _ H. eauto.
Qed.

(** X12.  The signaling dialect is chosen by the URL.  A WebRTC start
    in a browser with WebRTC, where no constructor raises, opens a
    socket to the URL and leaves the status at Loading; the handlers
    are those of Janus when the lower-cased URL contains [janus], else
    those of the Echo Test when it contains [echotest], else the generic
    ones; only in the generic case does a peer connection exist before
    the socket opens. *)
Theorem X12_webrtc_dialect_by_url :
  forall (env : Env) (p : Player) (v : Video),
    videoRef p = Some v ->
    props_format p = webrtc ->
    truthy (props_url p) = true ->
    hasRTC env = true ->
    ctorThrows env KWs = false ->
    ctorThrows env KPeer = false ->
    let o := initializePlayer env p in
    let u := toLowerCase (props_url p) in
    returns o = true
    /\ status (final o) = Loading
    /\ wsDialect (final o) = dialectOf (props_url p)
    /\ (exists ws, webSocketConnection (final o) = Some ws
                   /\ h_ready ws = CONNECTING
                   /\ h_gen ws = S (generation p))
    /\ In (ANet KWs (props_url p)) (emitted o)
    /\ (is_some (peerConnection (final o)) = true
        <-> dialectOf (props_url p) = Generic)
    /\ (dialectOf (props_url p) = Janus
        <-> exists a b, u = a ++ "janus" ++ b)
    /\ (dialectOf (props_url p) = EchoTest
        <-> (~ (exists a b, u = a ++ "janus" ++ b)
             /\ exists a b, u = a ++ "echotest" ++ b)).
Proof.
  intros env p v Hv Hf Hu Hr Hw Hp o u.
  destruct (initializePlayer_run env p v Hv) as (v' & acts & _ & T & E).
  unfold o. rewrite E. clear E. unfold bind.
  destruct p as [pu pf vr h1 h2 h3 h4 h5 h6 st sid hid d g n lk].
  cbn in Hv, Hf, Hu, u |- *. subst pf vr.
  unfold dialectOf. subst u.
  x_unfold. cbn -[truthy includes toLowerCase].
  rewrite ?Hr, ?Hw, ?Hp, ?Hu. cbn -[truthy includes toLowerCase].
  assert (J := includes_spec (toLowerCase pu) "janus").
  assert (K := includes_spec (toLowerCase pu) "echotest").
  destruct (v_attached v'); cbn -[truthy includes toLowerCase];
    (destruct (includes (toLowerCase pu) "janus") eqn:Ij;
     cbn -[truthy includes toLowerCase];
     [|destruct (includes (toLowerCase pu) "echotest") eqn:Ie;
       cbn -[truthy includes toLowerCase]]);
    rewrite ?Hw, ?Hp, ?Hu; cbn -[truthy includes toLowerCase];
    rewrite ?Hw, ?Hp, ?Hu; cbn -[truthy includes toLowerCase];
    (split; [reflexivity|]); (split; [reflexivity|]);
    (split; [reflexivity|]);
    (split; [eexists; repeat split; reflexivity|]);
    (split; [apply in_or_app; right; cbn; tauto|]);
    (split; [split; intros H; (reflexivity || discriminate H)|]);
    (split; [split; intros H;
               first [reflexivity | discriminate H | apply J; reflexivity
                     | apply J in H; discriminate H]|]);
    (split; [intros H; first [discriminate H
               | split; [intros H'; apply J in H'; discriminate H'
                        | apply K; reflexivity]]
            | intros [H1 H2];
              first [reflexivity
                    | exfalso; apply H1, J; reflexivity
                    | apply K in H2; discriminate H2]]).
Qed.

(** X18.  With hls.js, a start for HLS creates the engine, reports
    Loading and puts nothing on the network: the source is loaded by
    the [MEDIA_ATTACHED] handler, from the URL the props hold when it
    runs.  After a change of the props to a non-empty URL the handler
    does nothing, the instance being gone; after a change to an empty
    URL, which tears nothing down, it loads the empty URL. *)
Theorem X18_hls_loads_on_attach :
  forall (env env2 : Env) (p : Player) (v : Video),
    videoRef p = Some v ->
    props_format p = hls ->
    hlsSupported env = true ->
    ctorThrows env KHls = false ->
    startThrows env KHls = false ->
    let o := initializePlayer env p in
    returns o = true
    /\ status (final o) = Loading
    /\ hlsInstance (final o) = Some (mkHandle KHls (S (generation p)) OPEN)
    /\ forallb (fun a => negb (isNetworkIO a)) (emitted o) = true
    /\ handle env2 HlsMediaAttached (final o)
       = Normal tt (final o) [ANet KHls (props_url p)]
    /\ (forall u f,
          emitted (handle env2 HlsMediaAttached
                     (step env2 (PropsChange u f) (final o)))
          = if truthy u then [] else [ANet KHls u]).
Proof.
  intros env env2 p v Hv Hf Hh Hc Hs o.
  destruct (initializePlayer_run env p v Hv) as (v' & acts & _ & T & E).
  destruct (teardown_no_io acts T) as (N & _).
  unfold o. rewrite E. clear E. unfold bind.
  destruct p as [pu pf vr h1 h2 h3 h4 h5 h6 st sid hid d g n lk].
  cbn in Hv, Hf |- *. subst pf vr.
  x_unfold. cbn. rewrite Hh. cbn. rewrite Hc. cbn. rewrite Hs. cbn.
  split; [reflexivity|]. split; [reflexivity|]. split; [reflexivity|].
  split; [rewrite forallb_app, N; reflexivity|].
  split; [reflexivity|].
  intros u f. unfold step.
  destruct (truthy u) eqn:Hu.
  - match goal with |- context [handle env2 (PropsChange u f) ?q] =>
      destruct (propsChange_run env2 u f q _ eq_refl Hu)
        as (v2 & a2 & E2 & _) end.
    rewrite E2. reflexivity.
  - cbn [handle]. unfold effect, bind, gets, modify, ret, emit. cbn.
    rewrite Hu. reflexivity.
Qed.

Lemma X8_witness :
  let p := run [(plainEnv, Mount)]
             (created "https://dash.akamaized.net/envivio/EnvivioDash3/manifest.mpd" dash) in
  exists h,
    dashInstance
      (final (handle plainEnv TimerFires (final (handle plainEnv Unmount p))))
    = Some h
    /\ live h = true.
Proof.
  intros p.
  destruct (X8_unmount_keeps_pending_timer plainEnv plainEnv p
              (mkVideo "" None [] true) 0 eq_refl eq_refl)
    as (_ & _ & _ & _ & _ & _ & _ & _ & H).
  exact (H eq_refl eq_refl).
Defined.

Lemma X9_witness :
  let p := run janusSession (created janusUrl webrtc) in
  janusOnMessage plainEnv (JsonValue (janusFrame "success" (Some "815"))) p
  = Normal tt (set_janus (Some "815") (handleId p) p)
      [AStatusText "Janus: success"; ASend (OJanusAttach "815")]
  /\ peerConnection p = None.
Proof.
  intros p.
  destruct X9_janus_never_negotiates as (_ & A & B).
  split.
  - apply (A plainEnv (janusFrame "success" (Some "815")) "815" p
             (mkHandle KWs 1 OPEN)); reflexivity.
  - apply (B janusUrl webrtc janusSession). reflexivity.
Defined.

Lemma X11_witness :
  let p := run [(plainEnv, Mount); (plainEnv, TimerFires); (plainEnv, WsOpen)]
             (created janusUrl webrtc) in
  let u := "https://test-videos.co.uk/vids/bigbuckbunny/mp4/h264/360/Big_Buck_Bunny_360_10s_1MB.mp4" in
  status
    (step plainEnv (StaleWsClosed Janus)
       (step plainEnv TimerFires (step plainEnv (PropsChange u mp4) p)))
  = Error.
Proof.
  intros p u.
  destruct (X11_late_close_fails_next_session plainEnv plainEnv plainEnv p
              (mkVideo "" None ["Connecting to WebRTC stream..."] true)
              (mkHandle KWs 1 OPEN) u Janus
              eq_refl eq_refl eq_refl eq_refl) as (_ & _ & _ & A & _).
  unfold step. rewrite A. reflexivity.
Defined.

Lemma X12_witness :
  wsDialect (final (initializePlayer plainEnv (mounted janusUrl webrtc)))
  = Janus.
Proof.
  destruct (X12_webrtc_dialect_by_url plainEnv (mounted janusUrl webrtc)
              (mkVideo "" None [] true) eq_refl eq_refl eq_refl eq_refl
              eq_refl eq_refl) as (_ & _ & A & _).
  rewrite A. reflexivity.
Defined.

Lemma X13_witness :
  generation
    (final (initializePlayer plainEnv
              (mounted "https://test-streams.mux.dev/x36xhzz/x36xhzz.m3u8" hls)))
  = 1%nat.
Proof.
  destruct (X13_initialisation_reports plainEnv
              (mounted "https://test-streams.mux.dev/x36xhzz/x36xhzz.m3u8" hls))
    as (_ & H).
  destruct (H (mkVideo "" None [] true) eq_refl) as (_ & _ & G). exact G.
Defined.

Lemma X14_witness :
  let p := run [(plainEnv, Mount); (plainEnv, TimerFires)]
             (created "https://test-streams.mux.dev/x36xhzz/x36xhzz.m3u8" hls) in
  handle plainEnv (PropsChange "" hls) p = Normal tt (set_props "" hls p) []
  /\ In (ARelease KHls)
        (emitted (handle plainEnv
                    (PropsChange "https://dash.akamaized.net/envivio/EnvivioDash3/manifest.mpd" dash) p)).
Proof.
  intros p. split.
  - destruct (X14_prop_change_defers_initialisation plainEnv "" hls p
                (mkVideo "" None [] true) eq_refl) as (A & _).
    exact (A eq_refl).
  - destruct (X14_prop_change_defers_initialisation plainEnv
                "https://dash.akamaized.net/envivio/EnvivioDash3/manifest.mpd"
                dash p (mkVideo "" None [] true) eq_refl) as (_ & B).
    destruct (B eq_refl) as (_ & _ & _ & _ & _ & R & _).
    apply (R KHls (mkHandle KHls 1 OPEN)); reflexivity.
Defined.

Lemma X18_witness :
  let p := mounted "https://test-streams.mux.dev/x36xhzz/x36xhzz.m3u8" hls in
  handle plainEnv HlsMediaAttached (final (initializePlayer plainEnv p))
  = Normal tt (final (initializePlayer plainEnv p))
      [ANet KHls "https://test-streams.mux.dev/x36xhzz/x36xhzz.m3u8"].
Proof.
  intros p.
  destruct (X18_hls_loads_on_attach plainEnv plainEnv p
              (mkVideo "" None [] true) eq_refl eq_refl eq_refl eq_refl
              eq_refl) as (_ & _ & _ & _ & A & _).
  exact A.
Defined.

End PlayerExtras.

(** ** The player, later version *)

Section PlayerV2Extras.
Import Player PlayerV2.
Local Open Scope player_scope.

Lemma substring_full s : String.substring 0 (String.length s) s = s.
Proof. induction s as [|c s IH]; cbn; [reflexivity|now rewrite IH]. Qed.

Lemma length_app a b :
  String.length (a ++ b) = (String.length a + String.length b)%nat.
Proof. induction a as [|c a IH]; cbn; [reflexivity|now rewrite IH]. Qed.

Lemma substring_skip a n m t :
  String.substring (String.length a + n) m (a ++ t) = String.substring n m t.
Proof. induction a as [|c a IH]; cbn; [reflexivity|exact IH]. Qed.

Lemma dropChars_app a r : dropChars (String.length a) (a ++ r) = r.
Proof.
  unfold dropChars. rewrite length_app.
  replace (String.length a + String.length r - String.length a)%nat
    with (String.length r) by lia.
  rewrite <- (Nat.add_0_r (String.length a)) at 1.
  rewrite substring_skip. apply substring_full.
Qed.

Lemma endsWith_app h suf : endsWith (h ++ suf) suf = true.
Proof.
  unfold endsWith. rewrite length_app.
  destruct (Nat.ltb_spec (String.length h + String.length suf)
              (String.length suf)) as [L|L]; [lia|].
  replace (String.length h + String.length suf - String.length suf)%nat
    with (String.length h + 0)%nat by lia.
  rewrite substring_skip, substring_full. apply String.eqb_refl.
Qed.

Lemma startsWith_app pre r : startsWith (pre ++ r) pre = true.
Proof. unfold startsWith. apply prefix_spec. eauto. Qed.

Lemma app_assoc_s (a b c : string) : (a ++ b) ++ c = a ++ (b ++ c).
Proof. induction a as [|x a IH]; cbn; [reflexivity|now rewrite IH]. Qed.

Lemma splitFirstSlash_none d :
  hasSlash d = false -> splitFirstSlash d = (d, "").
Proof.
  induction d as [|c d IH]; cbn; [reflexivity|].
  destruct (Ascii.eqb c "/"); cbn; [discriminate|].
  intros H. now rewrite (IH H).
Qed.

Lemma splitFirstSlash_some d path :
  hasSlash d = false -> splitFirstSlash (d ++ "/" ++ path) = (d, path).
Proof.
  induction d as [|c d IH]; [reflexivity|]. cbn.
  destruct (Ascii.eqb c "/"); cbn; [discriminate|].
  intros H. specialize (IH H). cbn in IH. now rewrite IH.
Qed.

Lemma splitFirstSlash_spec s :
  hasSlash (fst (splitFirstSlash s)) = false
  /\ (if hasSlash s
      then s = fst (splitFirstSlash s) ++ "/" ++ snd (splitFirstSlash s)
      else splitFirstSlash s = (s, "")).
Proof.
  induction s as [|c s (IH1 & IH2)]; cbn; [auto|].
  destruct (Ascii.eqb c "/") eqn:E; cbn.
  - apply Ascii.eqb_eq in E. subst. auto.
  - destruct (splitFirstSlash s) as [d p]. cbn in *. rewrite E. cbn.
    split; [exact IH1|]. destruct (hasSlash s).
    + now rewrite IH2 at 1.
    + now injection IH2 as -> ->.
Qed.

(** X17.  The URL [tryHlsAlternative] probes.  For
    [rtmp://domain/path], where the domain holds no slash, it is
    [https://domain/path/playlist.m3u8]; for an RTMP URL without a path
    it is [https://domain//playlist.m3u8], with two slashes.  For a URL
    that does not start with [rtmp://] nothing is done. *)
Theorem X17_hls_probe_url :
  forall (env : Env) (p : Player) (d path : string),
    hasSlash d = false ->
    hlsSupported env = true ->
    ctorThrows env KHls = false ->
    startThrows env KHls = false ->
    tryHlsAlternative env ("rtmp://" ++ d ++ "/" ++ path) p
    = Normal tt
        (set_leaked (mkHandle KHls (generation p) OPEN :: leaked p) p)
        [ACreate KHls;
         ANet KHls ("https://" ++ d ++ "/" ++ path ++ "/playlist.m3u8")]
    /\ tryHlsAlternative env ("rtmp://" ++ d) p
       = Normal tt
           (set_leaked (mkHandle KHls (generation p) OPEN :: leaked p) p)
           [ACreate KHls; ANet KHls ("https://" ++ d ++ "//playlist.m3u8")]
    /\ (forall u, startsWith u "rtmp://" = false ->
          tryHlsAlternative env u p = Normal tt p []).
Proof.
  intros env p d path Hd Hs Hc Ht.
  assert (D : forall r, dropChars 7 ("rtmp://" ++ r) = r)
    by (intros r; apply (dropChars_app "rtmp://")).
  split; [|split].
  - unfold tryHlsAlternative.
    rewrite (startsWith_app "rtmp://"). cbn [negb].
    rewrite D, (splitFirstSlash_some d path Hd), Hs.
    unfold when, start, try_catch, may_throw, bind, gets, modify, emit, ret.
    rewrite Hc, Ht. reflexivity.
  - unfold tryHlsAlternative.
    rewrite (startsWith_app "rtmp://"). cbn [negb].
    rewrite D, (splitFirstSlash_none d Hd), Hs.
    unfold when, start, try_catch, may_throw, bind, gets, modify, emit, ret.
    rewrite Hc, Ht. reflexivity.
  - intros u Hu. unfold tryHlsAlternative. rewrite Hu. reflexivity.
Qed.

Lemma httpFlvUrl_rtmp rest :
  (httpFlvUrl ("rtmp://" ++ rest) = "https://" ++ rest
   \/ httpFlvUrl ("rtmp://" ++ rest) = "https://" ++ rest ++ ".flv")
  /\ startsWith (httpFlvUrl ("rtmp://" ++ rest)) "https://" = true
  /\ endsWith (httpFlvUrl ("rtmp://" ++ rest)) ".flv" = true.
Proof.
  unfold httpFlvUrl. rewrite (startsWith_app "rtmp://").
  pose proof (dropChars_app "rtmp://" rest) as D. cbn [String.length] in D.
  rewrite D. cbv zeta.
  destruct (endsWith ("https://" ++ rest) ".flv") eqn:E; cbn [negb].
  - split; [left; reflexivity|].
    split; [apply (startsWith_app "https://")|exact E].
  - split; [right; apply app_assoc_s|].
    split; [rewrite app_assoc_s; apply (startsWith_app "https://")
           |apply endsWith_app].
Qed.

Lemma rtmpArm_flv env p :
  flvSupported env = true ->
  ctorThrows env KFlv = false ->
  startThrows env KFlv = false ->
  exists q pre,
    rtmpArm env p
    = Normal tt q
        (pre ++ [ACreate KFlv; ANet KFlv (httpFlvUrl (props_url p))])
    /\ forallb isProbeAction pre = true
    /\ status q = status p
    /\ flvPlayer q = Some (mkHandle KFlv (generation p) OPEN)
    /\ hlsInstance q = hlsInstance p
    /\ (startsWith (props_url p) "rtmp://" = true ->
        hlsSupported env = true -> ctorThrows env KHls = false ->
        In (ACreate KHls) pre
        /\ leaked q
           = match flvPlayer p with
             | Some old =>
               if live old
               then old :: mkHandle KHls (generation p) OPEN :: leaked p
               else mkHandle KHls (generation p) OPEN :: leaked p
             | None => mkHandle KHls (generation p) OPEN :: leaked p
             end).
Proof.
  intros Hf Hc Hs.
  destruct p as [pu pf vr h1 h2 h3 h4 h5 h6 st sid hid d g n lk].
  unfold rtmpArm, tryHlsAlternative, httpFlvUrl. rewrite Hf.
  cbn [props_url].
  destruct (splitFirstSlash (dropChars 7 pu)) as [dom path] eqn:Sp.
  unfold when, start, create, assign, try_catch, may_throw, console_error,
    bind, gets, modify, emit, ret, raise.
  cbn -[startsWith endsWith dropChars splitFirstSlash String.append].
  rewrite Hc, Hs.
  cbn -[startsWith endsWith dropChars splitFirstSlash String.append].
  destruct (startsWith pu "rtmp://") eqn:Su;
    cbn -[startsWith endsWith dropChars splitFirstSlash String.append];
    rewrite ?Sp;
    [destruct (hlsSupported env) eqn:Hh;
     cbn -[startsWith endsWith dropChars splitFirstSlash String.append];
     [destruct (ctorThrows env KHls) eqn:Hk;
      cbn -[startsWith endsWith dropChars splitFirstSlash String.append];
      [|destruct (startThrows env KHls) eqn:Hst;
        cbn -[startsWith endsWith dropChars splitFirstSlash String.append]]|]
    |];
    destruct h6 as [old|];
    cbn -[startsWith endsWith dropChars splitFirstSlash String.append];
    try destruct (live old);
    cbn -[startsWith endsWith dropChars splitFirstSlash String.append];
    (match goal with
     | |- exists q pre, Normal tt ?s ?l = _ /\ _ =>
       exists s;
       first
         [ exists []; split; [reflexivity|]
         | match l with ?a :: _ => exists [a] end; split; [reflexivity|]
         | match l with ?a :: ?b :: _ => exists [a; b] end;
           split; [reflexivity|] ]
     end);
    cbn -[startsWith endsWith dropChars splitFirstSlash String.append];
    repeat (split; [reflexivity|]);
    intros; first [discriminate | split; [tauto|reflexivity]].
Qed.


(** X15.  The RTMP arm of the later version, when flv.js is supported
    and does not raise: for a URL [rtmp://rest] an FLV player is created
    and told to load [https://rest], with [.flv] appended unless it is
    there; every URL given to the FLV player starts with [https://] and
    ends with [.flv].  The arm returns normally and reports no
    status. *)
Theorem X15_rtmp_url_rewrite :
  forall (env : Env) (p : Player) (rest : string),
    flvSupported env = true ->
    ctorThrows env KFlv = false ->
    startThrows env KFlv = false ->
    props_url p = "rtmp://" ++ rest ->
    let o := rtmpArm env p in
    returns o = true
    /\ status (final o) = status p
    /\ forallb (fun a => negb (isCallback a)) (emitted o) = true
    /\ (exists h, flvPlayer (final o) = Some h /\ live h = true)
    /\ (In (ANet KFlv ("https://" ++ rest)) (emitted o)
        \/ In (ANet KFlv ("https://" ++ rest ++ ".flv")) (emitted o))
    /\ (forall u, In (ANet KFlv u) (emitted o) ->
          startsWith u "https://" = true /\ endsWith u ".flv" = true).
Proof.
  intros env p rest Hf Hc Hs Hu o.
  destruct (rtmpArm_flv env p Hf Hc Hs)
    as (q & pre & E & P & S & F & _).
  unfold o. rewrite E. cbn [returns final emitted]. rewrite Hu.
  destruct (httpFlvUrl_rtmp rest) as (U & U1 & U2).
  split; [reflexivity|]. split; [exact S|]. split.
  { rewrite forallb_app. cbn. rewrite andb_true_r. clear - P.
    induction pre as [|a pre IH]; [reflexivity|]. cbn in *.
    apply andb_prop in P as [A P]. rewrite (IH P), andb_true_r.
    destruct a; try discriminate A; reflexivity. }
  split; [eexists; split; [exact F|reflexivity]|]. split.
  { destruct U as [-> | ->]; [left|right]; apply in_or_app; right; cbn; tauto. }
  intros u Hin. apply in_app_or in Hin as [Hin|Hin].
  - exfalso. rewrite forallb_forall in P. specialize (P _ Hin).
    discriminate P.
  - cbn in Hin. destruct Hin as [H|[H|[]]]; [discriminate H|].
    injection H as <-. split; assumption.
Qed.




Lemma X15_witness :
  In (ANet KFlv "https://live.twitch.tv/app/.flv")
     (emitted (rtmpArm plainEnv (mounted "rtmp://live.twitch.tv/app/" rtmp))).
Proof.
  destruct (X15_rtmp_url_rewrite plainEnv
              (mounted "rtmp://live.twitch.tv/app/" rtmp)
              "live.twitch.tv/app/" eq_refl eq_refl eq_refl eq_refl)
    as (_ & _ & _ & _ & [A|A] & B).
  - destruct (B _ A) as (_ & E). discriminate E.
  - exact A.
Defined.


Lemma X17_witness :
  emitted (tryHlsAlternative plainEnv "rtmp://live.twitch.tv/app/"
             (mounted "rtmp://live.twitch.tv/app/" rtmp))
  = [ACreate KHls; ANet KHls "https://live.twitch.tv/app//playlist.m3u8"].
Proof.
  destruct (X17_hls_probe_url plainEnv
              (mounted "rtmp://live.twitch.tv/app/" rtmp)
              "live.twitch.tv" "app/" eq_refl eq_refl eq_refl eq_refl)
    as (A & _).
  change ("rtmp://" ++ "live.twitch.tv" ++ "/" ++ "app/")
    with "rtmp://live.twitch.tv/app/" in A.
  rewrite A. reflexivity.
Defined.

End PlayerV2Extras.
